(** * OpenAlex energy-hub collector: a shallow embedding of
      [openalex_final.py] and the properties of its retrieval,
      deduplication and aggregation core.

    Python values decoded from JSON are modelled by the inductive type
    [value]; a Python [dict] with string keys is an association list in
    insertion order; an exception is the [Raise] case of [result].
    Strings are byte strings: [str.lower], [str.strip] and [repr] below
    agree with Python on ASCII text.  JSON numbers are integers (the
    fields the program reads, [publication_year], [cited_by_count] and
    [meta.count], are integer fields of the API). *)

From Stdlib Require Import ZArith QArith Lia Ascii String List.
From stdpp Require Import base decidable countable gmap strings list pretty sorting.

Local Open Scope string_scope.
Local Open Scope list_scope.
Local Open Scope Z_scope.

(** ** Python values and exceptions *)

#[warnings="-register-all"]
Inductive value : Type :=
| VNone
| VBool (b : bool)
| VInt (z : Z)
| VStr (s : string)
| VList (l : list value)
| VDict (d : list (string * value)).

(** A [dict] with string keys. *)
Definition dict : Type := list (string * value).

Inductive exn : Type :=
| AttributeError
| TypeError
| ValueError
| ZeroDivisionError
| RequestException
| OverflowError.

Inductive result (A : Type) : Type :=
| Ok (a : A)
| Raise (e : exn).
Arguments Ok {A} a.
Arguments Raise {A} e.

#[global] Instance result_ret : MRet result := fun A a => Ok a.
#[global] Instance result_bind : MBind result := fun A B f m =>
  match m with
  | Ok a => f a
  | Raise e => Raise e
  end.
#[global] Instance result_fmap : FMap result := fun A B f m =>
  match m with
  | Ok a => Ok (f a)
  | Raise e => Raise e
  end.

(** ** Python primitives *)

(** Truth value of an object, as tested by [if x], [x and ...], [not x]. *)
Definition truthy (v : value) : bool :=
  match v with
  | VNone => false
  | VBool b => b
  | VInt z => negb (z =? 0)%Z
  | VStr s => negb (String.eqb s "")
  | VList l => match l with [] => false | _ => true end
  | VDict d => match d with [] => false | _ => true end
  end.

(** [d.get(k, default)] on a dict. *)
Fixpoint dict_get (d : dict) (k : string) (default : value) : value :=
  match d with
  | [] => default
  | (k', v) :: d' => if String.eqb k' k then v else dict_get d' k default
  end.

(** [k in d] on a dict. *)
Fixpoint dict_has (d : dict) (k : string) : bool :=
  match d with
  | [] => false
  | (k', _) :: d' => String.eqb k' k || dict_has d' k
  end.

(** [x.get(k, default)] on an arbitrary object: only a dict has [get]. *)
Definition py_get (x : value) (k : string) (default : value) : result value :=
  match x with
  | VDict d => Ok (dict_get d k default)
  | _ => Raise AttributeError
  end.

(** The integer an [int] or [bool] stands for in arithmetic and
    comparisons; [None] for every other type. *)
Definition as_int (v : value) : option Z :=
  match v with
  | VInt z => Some z
  | VBool b => Some (if b then 1 else 0)
  | _ => None
  end.

(** *** Strings *)

Definition ascii_lower (c : ascii) : ascii :=
  let n := nat_of_ascii c in
  if ((65 <=? n) && (n <=? 90))%nat then ascii_of_nat (n + 32) else c.

Fixpoint str_lower (s : string) : string :=
  match s with
  | EmptyString => EmptyString
  | String c s' => String (ascii_lower c) (str_lower s')
  end.

Definition is_space (c : ascii) : bool :=
  let n := nat_of_ascii c in
  ((n =? 32) || ((9 <=? n) && (n <=? 13)) || ((28 <=? n) && (n <=? 31)))%nat.

Fixpoint str_lstrip (s : string) : string :=
  match s with
  | EmptyString => EmptyString
  | String c s' => if is_space c then str_lstrip s' else s
  end.

Definition str_rev (s : string) : string :=
  string_of_list_ascii (rev (list_ascii_of_string s)).

Definition str_strip (s : string) : string :=
  str_rev (str_lstrip (str_rev (str_lstrip s))).

Fixpoint str_join (sep : string) (l : list string) : string :=
  match l with
  | [] => ""
  | [s] => s
  | s :: l' => s +:+ sep +:+ str_join sep l'
  end.

Fixpoint str_contains (c : ascii) (s : string) : bool :=
  match s with
  | EmptyString => false
  | String c' s' => Ascii.eqb c c' || str_contains c s'
  end.

Definition hex_digit (n : nat) : ascii :=
  ascii_of_nat (if (n <? 10)%nat then 48 + n else 87 + n).

(** One character inside [repr] of a string quoted with [q]. *)
Definition repr_char (q : ascii) (c : ascii) : string :=
  let n := nat_of_ascii c in
  if Ascii.eqb c "\" then "\\"
  else if Ascii.eqb c q then String "\" (String q "")
  else if (n =? 10)%nat then "\n"
  else if (n =? 13)%nat then "\r"
  else if (n =? 9)%nat then "\t"
  else if ((n <? 32) || (n =? 127))%nat
       then String "\" (String "x" (String (hex_digit (n / 16)) (String (hex_digit (n mod 16)) "")))
  else String c "".

Fixpoint repr_chars (q : ascii) (s : string) : string :=
  match s with
  | EmptyString => EmptyString
  | String c s' => repr_char q c +:+ repr_chars q s'
  end.

Definition squote : ascii := ascii_of_nat 39.
Definition dquote : ascii := ascii_of_nat 34.

Definition repr_str (s : string) : string :=
  let q := if str_contains squote s && negb (str_contains dquote s) then dquote else squote in
  String q (repr_chars q s +:+ String q "").

Fixpoint py_repr (v : value) : string :=
  match v with
  | VNone => "None"
  | VBool b => if b then "True" else "False"
  | VInt z => pretty z
  | VStr s => repr_str s
  | VList l => "[" +:+ str_join ", " (map py_repr l) +:+ "]"
  | VDict d =>
      "{" +:+ str_join ", " (map (fun kv => repr_str (fst kv) +:+ ": " +:+ py_repr (snd kv)) d) +:+ "}"
  end.

(** [str(x)]. *)
Definition py_str (v : value) : string :=
  match v with
  | VStr s => s
  | _ => py_repr v
  end.

(** *** Hashing, for membership in a [set] *)

Inductive key : Type :=
| KNone
| KInt (z : Z)
| KStr (s : string).

#[global] Instance key_eq_dec : EqDecision key.
Proof. solve_decision. Defined.

#[global] Instance key_countable : Countable key.
Proof.
  refine (inj_countable'
    (fun k => match k with
              | KNone => inl tt
              | KInt z => inr (inl z)
              | KStr s => inr (inr s)
              end)
    (fun x => match x with
              | inl _ => KNone
              | inr (inl z) => KInt z
              | inr (inr s) => KStr s
              end) _).
  intros []; reflexivity.
Defined.

(** The key under which a [set] stores an object: [True == 1] and
    [False == 0] hash alike; a list or a dict is unhashable. *)
Definition py_hash (v : value) : result key :=
  match v with
  | VNone => Ok KNone
  | VBool b => Ok (KInt (if b then 1 else 0))
  | VInt z => Ok (KInt z)
  | VStr s => Ok (KStr s)
  | VList _ | VDict _ => Raise TypeError
  end.

(** ** Deduplicator: [remove_duplicates] *)

(** [str(paper.get('title', '')).lower().strip()] *)
Definition norm_title (paper : dict) : string :=
  str_strip (str_lower (py_str (dict_get paper "title" (VStr "")))).

Definition paper_id (paper : dict) : value := dict_get paper "id" (VStr "").

(** [paper_id and paper_id not in seen_ids] *)
Definition id_unseen (pid : value) (seen_ids : gset key) : result bool :=
  if truthy pid then k ← py_hash pid; Ok (bool_decide (k ∉ seen_ids))
  else Ok false.

(** [title and title not in seen_titles] *)
Definition title_unseen (title : string) (seen_titles : gset string) : bool :=
  negb (String.eqb title "") && bool_decide (title ∉ seen_titles).

(** The [for paper in papers] loop, with its three mutable variables. *)
Fixpoint dedup_loop (papers : list dict) (unique_papers : list dict)
    (seen_ids : gset key) (seen_titles : gset string) : result (list dict) :=
  match papers with
  | [] => Ok unique_papers
  | paper :: rest =>
      let pid := paper_id paper in
      let title := norm_title paper in
      c ← id_unseen pid seen_ids;
      if c : bool then
        k ← py_hash pid;
        dedup_loop rest (unique_papers ++ [paper]) ({[k]} ∪ seen_ids) seen_titles
      else if title_unseen title seen_titles then
        dedup_loop rest (unique_papers ++ [paper]) seen_ids ({[title]} ∪ seen_titles)
      else
        dedup_loop rest unique_papers seen_ids seen_titles
  end.

Definition remove_duplicates (papers : list dict) : result (list dict) :=
  dedup_loop papers [] ∅ ∅.

(** A record without a usable id is one whose id is falsy. *)
Definition idless (paper : dict) : Prop := truthy (paper_id paper) = false.

#[global] Instance idless_dec paper : Decision (idless paper).
Proof. unfold idless. apply _. Defined.

(** An object a [set] can hold. *)
Definition hashable (v : value) : Prop :=
  match v with
  | VList _ | VDict _ => False
  | _ => True
  end.

(** The three records of the end-to-end example. *)
Definition ex_rec1 : dict :=
  [("id", VStr "A"); ("title", VStr "Energy Hub Study"); ("year", VInt 2021)].
Definition ex_rec2 : dict :=
  [("id", VStr "A"); ("title", VStr "Different Title"); ("year", VInt 2021)].
Definition ex_rec3 : dict :=
  [("id", VStr ""); ("title", VStr "Energy Hub Study"); ("year", VInt 2022)].
Definition ex_records : list dict := [ex_rec1; ex_rec2; ex_rec3].

(** [x[:n]] *)
Definition py_slice (n : nat) (x : value) : result value :=
  match x with
  | VList l => Ok (VList (take n l))
  | VStr s => Ok (VStr (string_of_list_ascii (take n (list_ascii_of_string s))))
  | _ => Raise TypeError
  end.

(** The items [for item in x] visits. *)
Definition py_iter (x : value) : result (list value) :=
  match x with
  | VList l => Ok l
  | VStr s => Ok ((λ c, VStr (String c "")) <$> list_ascii_of_string s)
  | VDict d => Ok ((λ kv, VStr kv.1) <$> d)
  | _ => Raise TypeError
  end.

(** ** The API *)

(** The query parameters of one [requests.get] call. *)
Record request : Type := {
  req_url : string;
  req_filter : string;
  req_per_page : Z;
  req_sort : string;
  req_mailto : string;
  req_page : option Z
}.

(** What [requests.get] gives back: it raises, or returns a response
    whose body decodes as JSON ([Some]) or does not ([None]). *)
Inductive response : Type :=
| Transport_failure
| Response (status_code : Z) (text : string) (json : option value).

(** A simulated API: the reply to each request.  The requests of one
    query differ in their page number, so this covers every sequence of
    replies. *)
Definition api : Type := request → response.

Definition base_url : string := "https://api.openalex.org/".

(** ** Record Normalizer (the body of the loop over a page) *)

(** Lines 93-97: the venue, through [primary_location] and [source]. *)
Definition extract_venue (work : value) : result value :=
  primary_location ← py_get work "primary_location" (VDict []);
  if truthy primary_location then
    source ← py_get primary_location "source" (VDict []);
    if truthy source then py_get source "display_name" (VStr "")
    else Ok (VStr "")
  else Ok (VStr "").

(** Lines 101-107: the loop over the sliced authorships. *)
Fixpoint extract_authors (authorships : list value) (authors : list value)
    : result (list value) :=
  match authorships with
  | [] => Ok authors
  | authorship :: rest =>
      author ← py_get authorship "author" (VDict []);
      if truthy author then
        name ← py_get author "display_name" (VStr "");
        orcid ← py_get author "orcid" VNone;
        extract_authors rest (authors ++ [VDict [("name", name); ("orcid", orcid)]])
      else extract_authors rest authors
  end.

(** Lines 77-107: the Paper built from one raw work. *)
Definition normalize_work (search_query category : string) (work : value) : result dict :=
  id ← py_get work "id" (VStr "");
  title ← py_get work "display_name" (VStr "");
  year ← py_get work "publication_year" VNone;
  doi ← py_get work "doi" VNone;
  citation_count ← py_get work "cited_by_count" (VInt 0);
  open_access ← py_get work "open_access" (VDict []);
  is_oa ← py_get open_access "is_oa" (VBool false);
  abstract_inverted ← py_get work "abstract_inverted_index" (VDict []);
  venue ← extract_venue work;
  authorships ← py_get work "authorships" (VList []);
  first10 ← py_slice 10 authorships;
  items ← py_iter first10;
  authors ← extract_authors items [];
  Ok [("id", id); ("title", title); ("year", year); ("doi", doi);
      ("citation_count", citation_count); ("open_access", is_oa);
      ("venue", venue); ("authors", VList authors);
      ("abstract_inverted", abstract_inverted);
      ("search_term", VStr search_query); ("category", VStr category);
      ("source", VStr "openalex")].

(** [year and 2020 <= year <= 2025]: comparing an int with anything but
    a number raises. *)
Definition in_target_years (year : value) : result bool :=
  if truthy year then
    match as_int year with
    | Some y => Ok ((2020 <=? y) && (y <=? 2025))
    | None => Raise TypeError
    end
  else Ok false.

(** ** Paginated Fetcher: [search_works] *)

(** The state the [try] block works on: the list it appends to, and the
    requests issued so far. *)
Record fetch_state : Type := {
  all_papers : list dict;
  requests : list request
}.

(** A computation inside the [try] block: it may change the state and
    then return or raise; the state survives a raise. *)
Definition fetch (A : Type) : Type := fetch_state → fetch_state * result A.

#[global] Instance fetch_ret : MRet fetch := fun A a st => (st, Ok a).
#[global] Instance fetch_bind : MBind fetch := fun A B f m st =>
  match m st with
  | (st', Ok a) => f a st'
  | (st', Raise e) => (st', Raise e)
  end.

Definition lift {A : Type} (r : result A) : fetch A := fun st => (st, r).

Definition append_paper (paper : dict) : fetch unit := fun st =>
  ({| all_papers := all_papers st ++ [paper]; requests := requests st |}, Ok tt).

(** [requests.get(...)]: the call is issued, then it returns or raises. *)
Definition http_get (server : api) (req : request) : fetch (Z * option value) := fun st =>
  let st' := {| all_papers := all_papers st; requests := requests st ++ [req] |} in
  match server req with
  | Transport_failure => (st', Raise RequestException)
  | Response status_code _ json => (st', Ok (status_code, json))
  end.

(** [response.json()] *)
Definition response_json (json : option value) : result value :=
  match json with
  | Some data => Ok data
  | None => Raise ValueError
  end.

Fixpoint for_each {A : Type} (body : A → fetch unit) (items : list A) : fetch unit :=
  match items with
  | [] => mret tt
  | item :: rest => body item ≫= λ _, for_each body rest
  end.

(** Lines 76-111: one work of a page. *)
Definition process_work (search_query category : string) (work : value) : fetch unit :=
  paper ← lift (normalize_work search_query category work);
  keep ← lift (in_target_years (dict_get paper "year" VNone));
  if keep : bool then append_paper paper else mret tt.

(** The largest quotient a float holds: [count / per_page] raises
    [OverflowError] when it rounds to [2^1024] or more. *)
Definition float_overflow_bound : Z := 2 ^ 1024 - 2 ^ 970.

(** [page >= count / per_page], a true division by the positive page
    size. *)
Definition page_reached (page : Z) (count : value) (per_page : Z) : result bool :=
  match as_int count with
  | Some c =>
      if float_overflow_bound * per_page <=? Z.abs c then Raise OverflowError
      else Ok (c <=? page * per_page)
  | None => Raise TypeError
  end.

(** [params['page'] = page] *)
Definition page_request (params : request) (page : Z) : request :=
  {| req_url := req_url params; req_filter := req_filter params;
     req_per_page := req_per_page params; req_sort := req_sort params;
     req_mailto := req_mailto params; req_page := Some page |}.

(** How one turn of [while True] ends when nothing is raised. *)
Inductive turn : Type :=
| Break
| Next_page.

(** Lines 59-116: one turn of the loop, up to the page-count test. *)
Definition fetch_page (server : api) (params : request)
    (search_query category : string) (page : Z) : fetch turn :=
  '(status_code, json) ← http_get server (page_request params page);
  if negb (status_code =? 200) then mret Break
  else
    data ← lift (response_json json);
    results ← lift (py_get data "results" (VList []));
    if negb (truthy results) then mret Break
    else
      works ← lift (py_iter results);
      _ ← for_each (process_work search_query category) works;
      meta ← lift (py_get data "meta" (VDict []));
      count ← lift (py_get meta "count" (VInt 0));
      reached ← lift (page_reached page count (req_per_page params));
      mret (if reached : bool then Break else Next_page).

(** The [while True] loop; [fuel] bounds the number of turns. *)
Fixpoint fetch_loop (fuel : nat) (server : api) (params : request)
    (search_query category : string) (page : Z) (st : fetch_state)
    : option fetch_state :=
  match fuel with
  | O => None
  | S fuel' =>
      match fetch_page server params search_query category page st with
      | (st', Raise _) => Some st'
      | (st', Ok Break) => Some st'
      | (st', Ok Next_page) =>
          let page' := page + 1 in
          if page' >? 10 then Some st'
          else fetch_loop fuel' server params search_query category page' st'
      end
  end.

Definition title_params (email search_query : string) (year_start year_end : Z) : request :=
  {| req_url := base_url +:+ "works";
     req_filter := str_join "," ["publication_year:" +:+ pretty year_start +:+ "-" +:+ pretty year_end;
                                 "title.search:" +:+ search_query];
     req_per_page := 200;
     req_sort := "publication_date:desc";
     req_mailto := email;
     req_page := None |}.

Definition empty_state : fetch_state := {| all_papers := []; requests := [] |}.

(** [search_works]: the final state holds the returned list
    ([all_papers]) and the requests that were issued. *)
Definition search_works (fuel : nat) (server : api) (email search_query category : string)
    (year_start year_end : Z) : option fetch_state :=
  fetch_loop fuel server (title_params email search_query year_start year_end)
    search_query category 1 empty_state.

(** What the reply to the request for [page] makes of one turn of the
    loop: how the turn ends, and the papers it appends. *)
Definition page_outcome (search_query category : string) (params : request) (page : Z)
    (reply : response) : result turn :=
  (fetch_page (λ _, reply) params search_query category page empty_state).2.

Definition page_papers (search_query category : string) (params : request) (page : Z)
    (reply : response) : list dict :=
  all_papers (fetch_page (λ _, reply) params search_query category page empty_state).1.

(** A reply that is no page: the transport failed, or the status is not
    200. *)
Definition failed (reply : response) : Prop :=
  match reply with
  | Transport_failure => True
  | Response status_code _ _ => status_code ≠ 200
  end.

(** A reply with status 200 and no results. *)
Definition empty_page (reply : response) : Prop :=
  ∃ text data, reply = Response 200 text (Some (VDict data)) ∧
    truthy (dict_get data "results" (VList [])) = false.

(** A reply with status 200 whose reported total is covered by the
    pages fetched so far. *)
Definition last_page (page per_page : Z) (reply : response) : Prop :=
  ∃ text data meta c, reply = Response 200 text (Some (VDict data)) ∧
    dict_get data "meta" (VDict []) = VDict meta ∧
    as_int (dict_get meta "count" (VInt 0)) = Some c ∧
    c ≤ page * per_page.

(** The state after more papers and more requests. *)
Definition extend (st : fetch_state) (papers : list dict) (reqs : list request) : fetch_state :=
  {| all_papers := all_papers st ++ papers; requests := requests st ++ reqs |}.

(** The requests for [n] consecutive pages from [page] on. *)
Definition page_requests (params : request) (page n : Z) : list request :=
  page_request params <$> seqZ page n.

(** The papers these pages contribute. *)
Definition pages_papers (server : api) (search_query category : string) (params : request)
    (page n : Z) : list dict :=
  concat ((λ p, page_papers search_query category params p (server (page_request params p)))
            <$> seqZ page n).

(** The year of a kept Paper: an integer of the target window. *)
Definition in_window (paper : dict) : Prop :=
  ∃ y, dict_get paper "year" VNone = VInt y ∧ 2020 ≤ y ≤ 2025.

(** ** Abstract strategy: [search_by_abstract] *)

Definition abstract_params (email search_query : string) (year_start year_end : Z) : request :=
  {| req_url := base_url +:+ "works";
     req_filter := str_join "," ["publication_year:" +:+ pretty year_start +:+ "-" +:+ pretty year_end;
                                 "abstract.search:" +:+ search_query];
     req_per_page := 100;
     req_sort := "cited_by_count:desc";
     req_mailto := email;
     req_page := None |}.

(** Lines 157-167: the Paper of one work, when its year is in range. *)
Definition abstract_paper (search_query category : string) (work : value)
    : result (option dict) :=
  year ← py_get work "publication_year" VNone;
  keep ← in_target_years year;
  if keep : bool then
    id ← py_get work "id" (VStr "");
    title ← py_get work "display_name" (VStr "");
    year ← py_get work "publication_year" VNone;
    citation_count ← py_get work "cited_by_count" (VInt 0);
    Ok (Some [("id", id); ("title", title); ("year", year);
              ("citation_count", citation_count);
              ("search_term", VStr search_query); ("category", VStr category);
              ("source", VStr "openalex_abstract")])
  else Ok None.

(** Lines 155-167: the loop over the results, with its local list. *)
Fixpoint abstract_papers (search_query category : string) (works : list value)
    (papers : list dict) : result (list dict) :=
  match works with
  | [] => Ok papers
  | work :: rest =>
      p ← abstract_paper search_query category work;
      match p with
      | Some paper => abstract_papers search_query category rest (papers ++ [paper])
      | None => abstract_papers search_query category rest papers
      end
  end.

(** The body of the [try] block. *)
Definition abstract_try (reply : response) (search_query category : string)
    : result (list dict) :=
  match reply with
  | Transport_failure => Raise RequestException
  | Response status_code _ json =>
      if status_code =? 200 then
        data ← response_json json;
        results ← py_get data "results" (VList []);
        works ← py_iter results;
        abstract_papers search_query category works []
      else Ok []
  end.

Definition search_by_abstract (server : api) (email search_query category : string)
    (year_start year_end : Z) : list dict :=
  match abstract_try (server (abstract_params email search_query year_start year_end))
          search_query category with
  | Ok papers => papers
  | Raise _ => []
  end.

(** ** Aggregator: [save_annual_summary_csvs] *)

(** One entry of [annual_data]: the papers of a year, by bucket. *)
Record year_data : Type := {
  yd_core : list dict;
  yd_related : list dict;
  yd_all : list dict
}.

Definition empty_year_data : year_data := {| yd_core := []; yd_related := []; yd_all := [] |}.

(** [x == s] for a string [s]. *)
Definition py_eq_str (x : value) (s : string) : bool :=
  match x with
  | VStr s' => String.eqb s' s
  | _ => false
  end.

(** [year and isinstance(year, (int, float)) and 2020 <= year <= 2025],
    then [int(year)]; a [bool] is an [int]. *)
Definition summary_year (year : value) : option Z :=
  if truthy year then
    match as_int year with
    | Some y => if (2020 <=? y) && (y <=? 2025) then Some y else None
    | None => None
    end
  else None.

(** Lines 394-402: one paper filed into [annual_data]. *)
Definition organize_step (annual_data : gmap Z year_data) (paper : dict) : gmap Z year_data :=
  match summary_year (dict_get paper "year" VNone) with
  | Some year =>
      let yd := default empty_year_data (annual_data !! year) in
      let category := dict_get paper "category" (VStr "unknown") in
      let core := if py_eq_str category "core" then yd_core yd ++ [paper] else yd_core yd in
      let related :=
        if py_eq_str category "related" then yd_related yd ++ [paper] else yd_related yd in
      <[year := {| yd_core := core; yd_related := related; yd_all := yd_all yd ++ [paper] |}]>
        annual_data
  | None => annual_data
  end.

Definition organize (papers : list dict) : gmap Z year_data :=
  foldl organize_step ∅ papers.

(** [sorted(annual_data.keys())] *)
Definition sorted_years {V : Type} (annual_data : gmap Z V) : list Z :=
  merge_sort Z.le (elements (dom annual_data)).

(** [sum(...)] of a generator of objects, from the start value [0]. *)
Fixpoint py_sum (acc : Z) (items : list value) : result Z :=
  match items with
  | [] => Ok acc
  | x :: rest =>
      match as_int x with
      | Some z => py_sum (acc + z) rest
      | None => Raise TypeError
      end
  end.

(** [sum(p.get('citation_count', 0) for p in papers)] *)
Definition citation_sum (papers : list dict) : result Z :=
  py_sum 0 ((λ p, dict_get p "citation_count" (VInt 0)) <$> papers).

Definition is_open_access (paper : dict) : bool :=
  truthy (dict_get paper "open_access" (VBool false)).

(** [sum(1 for p in papers if p.get('open_access', False))] *)
Definition open_access_count (papers : list dict) : Z :=
  Z.of_nat (length (List.filter is_open_access papers)).

(** The integer columns of a row of the annual summary table.  The
    averages and percentages are floats guarded by [count > 0]; they are
    left out. *)
Record summary_row : Type := {
  year : Z;
  core_papers : Z;
  related_papers : Z;
  total_papers : Z;
  core_citations : Z;
  related_citations : Z;
  total_citations : Z;
  core_open_access : Z;
  related_open_access : Z;
  total_open_access : Z
}.

(** Lines 410-447. *)
Definition summary_row_of (y : Z) (yd : year_data) : result summary_row :=
  let core_count := Z.of_nat (length (yd_core yd)) in
  let related_count := Z.of_nat (length (yd_related yd)) in
  let total_count := core_count + related_count in
  core_cit ← citation_sum (yd_core yd);
  related_cit ← citation_sum (yd_related yd);
  let total_cit := core_cit + related_cit in
  let core_oa := open_access_count (yd_core yd) in
  let related_oa := open_access_count (yd_related yd) in
  let total_oa := core_oa + related_oa in
  Ok {| year := y;
        core_papers := core_count; related_papers := related_count;
        total_papers := total_count;
        core_citations := core_cit; related_citations := related_cit;
        total_citations := total_cit;
        core_open_access := core_oa; related_open_access := related_oa;
        total_open_access := total_oa |}.

(** [sep.join(items)]: every item has to be a string. *)
Fixpoint py_join (sep : string) (items : list value) : result string :=
  match items with
  | [] => Ok ""
  | x :: rest =>
      match x with
      | VStr s =>
          match rest with
          | [] => Ok s
          | _ => tail ← py_join sep rest; Ok (s +:+ sep +:+ tail)
          end
      | _ => Raise TypeError
      end
  end.

(** ['; '.join([a.get('name', '') for a in paper.get('authors', [])[:5]])] *)
Definition author_names (paper : dict) : result string :=
  first5 ← py_slice 5 (dict_get paper "authors" (VList []));
  items ← py_iter first5;
  names ← mapM (λ a, py_get a "name" (VStr "")) items;
  py_join "; " names.

(** A row of one of the two detail tables. *)
Definition detail_row (y : Z) (category : value) (paper : dict) : result dict :=
  authors ← author_names paper;
  Ok [("year", VInt y);
      ("title", dict_get paper "title" (VStr ""));
      ("authors", VStr authors);
      ("venue", dict_get paper "venue" (VStr ""));
      ("citation_count", dict_get paper "citation_count" (VInt 0));
      ("open_access", dict_get paper "open_access" (VBool false));
      ("doi", dict_get paper "doi" (VStr ""));
      ("openalex_id", dict_get paper "id" (VStr ""));
      ("search_term", dict_get paper "search_term" (VStr ""));
      ("category", category)].

Definition in_core_or_related (paper : dict) : bool :=
  let category := dict_get paper "category" VNone in
  py_eq_str category "core" || py_eq_str category "related".

(** What the body of the loop over the years adds to the three lists. *)
Definition year_tables (y : Z) (yd : year_data)
    : result (summary_row * list dict * list dict) :=
  row ← summary_row_of y yd;
  core_detail ← mapM (detail_row y (VStr "core")) (yd_core yd);
  combined_detail ←
    mapM (λ paper, detail_row y (dict_get paper "category" (VStr "unknown")) paper)
         (List.filter in_core_or_related (yd_all yd));
  Ok (row, core_detail, combined_detail).

(** Lines 409-480: the loop over the sorted years. *)
Fixpoint summary_loop (annual_data : gmap Z year_data) (years : list Z)
    (summary_stats : list summary_row) (core_papers_detail combined_papers_detail : list dict)
    : result (list summary_row * list dict * list dict) :=
  match years with
  | [] => Ok (summary_stats, core_papers_detail, combined_papers_detail)
  | y :: rest =>
      '(row, core_detail, combined_detail) ←
         year_tables y (default empty_year_data (annual_data !! y));
      summary_loop annual_data rest (summary_stats ++ [row])
        (core_papers_detail ++ core_detail) (combined_papers_detail ++ combined_detail)
  end.

(** ** Growth rates *)

(** [a / b] on integers: a true division. *)
Definition py_truediv (a b : Z) : result Q :=
  if b =? 0 then Raise ZeroDivisionError
  else Ok (inject_Z a / inject_Z b)%Q.

(** [((curr - prev) / prev * 100) if prev > 0 else 0]; the quotient is
    the exact rational the float approximates. *)
Definition growth (prev_total curr_total : Z) : result Q :=
  if prev_total >? 0 then
    q ← py_truediv (curr_total - prev_total) prev_total;
    Ok (q * inject_Z 100)%Q
  else Ok (inject_Z 0).

(** The loop [for i in range(1, len(totals))] over consecutive years. *)
Fixpoint growth_rates (totals : list Z) : result (list Q) :=
  match totals with
  | [] => Ok []
  | prev_total :: rest =>
      match rest with
      | [] => Ok []
      | curr_total :: _ =>
          g ← growth prev_total curr_total;
          gs ← growth_rates rest;
          Ok (g :: gs)
      end
  end.

(** What [save_annual_summary_csvs] returns, and the growth rates it
    prints (lines 526-533). *)
Record annual_reports : Type := {
  summary : list summary_row;
  core_papers_table : list dict;
  combined_papers_table : list dict;
  year_matrix : list (Z * Z * Z * Z);
  growth_analysis : list Q
}.

Definition save_annual_summary_csvs (papers : list dict) : result (option annual_reports) :=
  match papers with
  | [] => Ok None
  | _ =>
      let annual_data := organize papers in
      '(summary_stats, core_detail, combined_detail) ←
         summary_loop annual_data (sorted_years annual_data) [] [] [];
      let matrix :=
        (λ y, let yd := default empty_year_data (annual_data !! y) in
              let c := Z.of_nat (length (yd_core yd)) in
              let r := Z.of_nat (length (yd_related yd)) in
              (y, c, r, c + r)) <$> sorted_years annual_data in
      rates ← growth_rates (total_papers <$> summary_stats);
      Ok (Some {| summary := summary_stats;
                  core_papers_table := core_detail;
                  combined_papers_table := combined_detail;
                  year_matrix := matrix;
                  growth_analysis := rates |})
  end.

(** ** Trend chart: [create_publication_trend_chart] *)

(** Lines 551-558: the per-year counters [(core, related)]. *)
Definition chart_step (annual_data : gmap Z (Z * Z)) (paper : dict) : gmap Z (Z * Z) :=
  match summary_year (dict_get paper "year" VNone) with
  | Some y =>
      let category := dict_get paper "category" (VStr "unknown") in
      let '(c, r) := default (0, 0) (annual_data !! y) in
      if py_eq_str category "core" then <[y := (c + 1, r)]> annual_data
      else if py_eq_str category "related" then <[y := (c, r + 1)]> annual_data
      else annual_data
  | None => annual_data
  end.

Definition chart_total_counts (papers : list dict) : list Z :=
  let annual_data := foldl chart_step ∅ papers in
  (λ y, let '(c, r) := default (0, 0) (annual_data !! y) in c + r) <$> sorted_years annual_data.

(** Lines 597-603. *)
Definition chart_growth_rates (papers : list dict) : result (list Q) :=
  growth_rates (chart_total_counts papers).

(** The three sums a row of the summary table has to satisfy. *)
Definition row_totals (row : summary_row) : Prop :=
  total_papers row = core_papers row + related_papers row ∧
  total_citations row = core_citations row + related_citations row ∧
  total_open_access row = core_open_access row + related_open_access row.

(** The papers of year [y] that [organize] files under [category]. *)
Definition in_bucket (y : Z) (category : string) (paper : dict) : bool :=
  bool_decide (summary_year (dict_get paper "year" VNone) = Some y)
  && py_eq_str (dict_get paper "category" (VStr "unknown")) category.

(** The papers [organize] files under year [y]. *)
Definition in_year (y : Z) (paper : dict) : bool :=
  bool_decide (summary_year (dict_get paper "year" VNone) = Some y).

(** ** Sample inputs *)

(** A raw work with the given id and year, and nothing else. *)
Definition sample_work (id : string) (y : Z) : value :=
  VDict [("id", VStr id); ("display_name", VStr "Energy hub planning");
         ("publication_year", VInt y); ("cited_by_count", VInt 4);
         ("open_access", VDict [("is_oa", VBool true)])].

(** A raw work whose [open_access] field is [null]. *)
Definition null_open_access_work : value :=
  VDict [("id", VStr "W2"); ("display_name", VStr "Multi-energy systems");
         ("publication_year", VInt 2021); ("open_access", VNone)].

Definition page_body (works : list value) (count : Z) : option value :=
  Some (VDict [("results", VList works); ("meta", VDict [("count", VInt count)])]).

(** An API whose every page is full of results and whose reported total
    never runs out. *)
Definition endless_server : api := λ _,
  Response 200 "" (page_body [sample_work "W1" 2021; sample_work "W3" 2019] (10 ^ 12)).

(** The same API, but the third page is answered with status 500. *)
Definition failing_server : api := λ req,
  match req_page req with
  | Some 3 => Response 500 "Internal Server Error" None
  | _ => endless_server req
  end.

(** An API whose single page holds a work with a null [open_access]
    between two complete works. *)
Definition null_field_server : api := λ _,
  Response 200 ""
    (page_body [sample_work "W1" 2021; null_open_access_work; sample_work "W3" 2022] 3).

(** Papers for the aggregator. *)
Definition sample_paper (y : Z) (category : string) (citations : Z) (oa : bool) : dict :=
  [("id", VStr "W"); ("title", VStr "T"); ("year", VInt y);
   ("citation_count", VInt citations); ("open_access", VBool oa);
   ("authors", VList [VDict [("name", VStr "A. Author"); ("orcid", VNone)]]);
   ("category", VStr category)].

Definition sample_papers : list dict :=
  [sample_paper 2021 "core" 3 true; sample_paper 2020 "related" 5 false;
   sample_paper 2021 "related" 7 true; sample_paper 2022 "other" 1 true;
   sample_paper 2019 "core" 1 true; sample_paper 2023 "core" 2 false].

(** ** One work of a page, as a function *)

(** Lines 76-111 for one work: the Paper it appends, if any. *)
Definition kept_paper (search_query category : string) (work : value) : result (option dict) :=
  paper ← normalize_work search_query category work;
  keep ← in_target_years (dict_get paper "year" VNone);
  Ok (if keep : bool then Some paper else None).

Definition is_dict (v : value) : Prop :=
  match v with
  | VDict _ => True
  | _ => False
  end.

(** A nested object that may be missing: falsy, or a dict. *)
Definition optional_dict (v : value) : Prop := truthy v = false ∨ is_dict v.

Definition plain_authorship (authorship : value) : Prop :=
  match authorship with
  | VDict d => optional_dict (dict_get d "author" (VDict []))
  | _ => False
  end.

(** The works [normalize_work] can read: a dict whose [open_access] is
    a dict or absent, whose [primary_location] and its [source] are
    falsy or dicts, and whose first ten [authorships] are dicts with a
    falsy or dict [author]. *)
Definition plain_work (work : value) : Prop :=
  match work with
  | VDict d =>
      is_dict (dict_get d "open_access" (VDict [])) ∧
      match dict_get d "primary_location" (VDict []) with
      | VDict loc => optional_dict (dict_get loc "source" (VDict []))
      | v => truthy v = false
      end ∧
      match dict_get d "authorships" (VList []) with
      | VList items => Forall plain_authorship (take 10 items)
      | VStr s => s = ""
      | _ => False
      end
  | _ => False
  end.

(** ** Collection Orchestrator: [collect_all_papers] *)

Definition search_terms : list (string * list string) :=
  [("core", ["energy hub"; "energy hubs"; "energy hub optimization"; "energy hub modeling"]);
   ("related", ["multi-energy system"; "integrated energy system"; "multi-carrier energy";
                "energy system integration"; "multi-energy hub"; "energy nexus"])].

Definition key_terms : list string :=
  ["energy hub"; "multi-energy system"; "integrated energy system"].

(** The (term, category) pairs in the order of the two nested loops. *)
Definition title_queries : list (string * string) :=
  concat ((λ entry : string * list string, (λ term, (term, entry.1)) <$> entry.2) <$> search_terms).

(** Strategy 1: [all_papers.extend(self.search_works(term, category))]
    for each query; the state also keeps the requests issued. *)
Fixpoint title_strategy (fuel : nat) (server : api) (email : string)
    (queries : list (string * string)) (st : fetch_state) : option fetch_state :=
  match queries with
  | [] => Some st
  | (term, category) :: rest =>
      match search_works fuel server email term category 2004 2025 with
      | Some found =>
          title_strategy fuel server email rest
            (extend st (all_papers found) (requests found))
      | None => None
      end
  end.

(** Strategy 2: [all_papers.extend(self.search_by_abstract(term, 'related'))]. *)
Fixpoint abstract_strategy (server : api) (email : string) (terms : list string)
    (st : fetch_state) : fetch_state :=
  match terms with
  | [] => st
  | term :: rest =>
      abstract_strategy server email rest
        (extend st (search_by_abstract server email term "related" 2020 2025)
                   [abstract_params email term 2020 2025])
  end.

(** What a run of [collect_all_papers] does: the requests it issues and
    the list it returns, or the exception of [remove_duplicates]. *)
Record collection : Type := {
  issued : list request;
  collected : result (list dict)
}.

Definition collect_all_papers (fuel : nat) (server : api) (email : string) : option collection :=
  match title_strategy fuel server email title_queries empty_state with
  | Some st1 =>
      let st2 := abstract_strategy server email key_terms st1 in
      Some {| issued := requests st2; collected := remove_duplicates (all_papers st2) |}
  | None => None
  end.

(** ** Trend chart data: [create_publication_trend_chart] *)

(** Lines 549-563 and the returned tuple
    [(years, core_counts, related_counts, total_counts)]; the plotting
    in between is left out. *)
Definition trend_chart_data (papers : list dict) : option (list Z * list Z * list Z * list Z) :=
  match papers with
  | [] => None
  | _ =>
      let annual_data := foldl chart_step ∅ papers in
      let years := sorted_years annual_data in
      let core_counts := (λ y, (default (0, 0) (annual_data !! y)).1) <$> years in
      let related_counts := (λ y, (default (0, 0) (annual_data !! y)).2) <$> years in
      let total_counts := zip_with Z.add core_counts related_counts in
      Some (years, core_counts, related_counts, total_counts)
  end.

(** A paper counted by the summary and the chart: its year is in the
    window and its category is core or related. *)
Definition counted (paper : dict) : bool :=
  bool_decide (is_Some (summary_year (dict_get paper "year" VNone)))
  && (py_eq_str (dict_get paper "category" (VStr "unknown")) "core"
      || py_eq_str (dict_get paper "category" (VStr "unknown")) "related").

(** [sum] of a list of integers. *)
Definition sum_Z (l : list Z) : Z := foldr Z.add 0 l.

(** The citation count [p.get('citation_count', 0)] as an integer. *)
Definition citations_of (paper : dict) : option Z :=
  as_int (dict_get paper "citation_count" (VInt 0)).



(** The Paper [normalize_work] makes of [sample_work id y]. *)
Definition sample_normalized (id : string) (y : Z) (search_query category : string) : dict :=
  [("id", VStr id); ("title", VStr "Energy hub planning"); ("year", VInt y); ("doi", VNone);
   ("citation_count", VInt 4); ("open_access", VBool true); ("venue", VStr "");
   ("authors", VList []); ("abstract_inverted", VDict []);
   ("search_term", VStr search_query); ("category", VStr category);
   ("source", VStr "openalex")].

(** A raw work with a venue and two authorships, one without author. *)
Definition venue_work : dict :=
  [("id", VStr "W7"); ("display_name", VStr "Hub dispatch"); ("publication_year", VInt 2023);
   ("primary_location", VDict [("source", VDict [("display_name", VStr "Applied Energy")])]);
   ("authorships", VList [VDict [("author", VDict [("display_name", VStr "A. Author")])];
                          VDict [("author", VNone)]])].

(** The input papers filed under year [y] and [category], in input
    order. *)
Definition bucket (papers : list dict) (y : Z) (category : string) : list dict :=
  List.filter (in_bucket y category) papers.

(** The papers of year [y] a row counts in its total. *)
Definition row_size (papers : list dict) (y : Z) : Z :=
  Z.of_nat (length (bucket papers y "core")) + Z.of_nat (length (bucket papers y "related")).


(** The sum of an integer weight over a list of papers, and what the
    papers of year [y] add to a total column with that weight. *)
Definition weight_sum (w : dict → Z) (papers : list dict) : Z := sum_Z (w <$> papers).

Definition row_weight (w : dict → Z) (papers : list dict) (y : Z) : Z :=
  weight_sum w (bucket papers y "core") + weight_sum w (bucket papers y "related").

(** The weights of the citation and of the open-access columns. *)
Definition citation_weight (paper : dict) : Z := default 0 (citations_of paper).

Definition open_access_weight (paper : dict) : Z := if is_open_access paper then 1 else 0.

(** A reply with status 200 whose results are a non-empty list of works
    that can all be read, and whose reported total is the integer
    [count]. *)
Definition readable_page (search_query category : string) (count : Z) (reply : response)
    : Prop :=
  ∃ text data works kept meta,
    reply = Response 200 text (Some (VDict data)) ∧
    dict_get data "results" (VList []) = VList works ∧ works ≠ [] ∧
    Forall2 (λ work k, kept_paper search_query category work = Ok k) works kept ∧
    dict_get data "meta" (VDict []) = VDict meta ∧
    as_int (dict_get meta "count" (VInt 0)) = Some count.

(** An API that answers every page with one work and the same reported
    total. *)
Definition steady_server (count : Z) : api := λ _,
  Response 200 "" (page_body [sample_work "W1" 2021] count).

(** * Properties *)

(** ** Deduplicator *)

Example ex_norm : norm_title [("title", VStr "  Energy Hub Study ")] = "energy hub study".
Proof. reflexivity. Qed.

Example ex_repr : py_repr (VList [VStr "ab"; VInt (-12); VNone]) = "['ab', -12, None]".
Proof. vm_compute. reflexivity. Qed.

Lemma fmap_result_compose {A B C} (f : A → B) (g : B → C) (m : result A) :
  g <$> (f <$> m) = (g ∘ f) <$> m.
Proof. by destruct m. Qed.

Lemma fmap_result_ok {A B} (f : A → B) (m : result A) (b : B) :
  f <$> m = Ok b → ∃ a, m = Ok a ∧ b = f a.
Proof. destruct m; simpl; [|done]. unfold fmap, result_fmap. intros [= <-]. eauto. Qed.

(** The accumulator of the loop is a prefix of its result. *)
Lemma dedup_loop_acc papers : ∀ unique_papers seen_ids seen_titles,
  dedup_loop papers unique_papers seen_ids seen_titles
  = (app unique_papers) <$> dedup_loop papers [] seen_ids seen_titles.
Proof.
  induction papers as [|paper rest IH]; intros u si st; simpl.
  - unfold fmap, result_fmap. by rewrite app_nil_r.
  - destruct (id_unseen _ si) as [[|]|e]; simpl; [| |done].
    + destruct (py_hash _) as [k|e]; simpl; [|done].
      rewrite (IH (u ++ [paper])), (IH [paper]), fmap_result_compose.
      destruct (dedup_loop rest [] _ _); simpl; [|done].
      unfold fmap, result_fmap. by rewrite <- app_assoc.
    + destruct (title_unseen _ st).
      * rewrite (IH (u ++ [paper])), (IH [paper]), fmap_result_compose.
        destruct (dedup_loop rest [] _ _); simpl; [|done].
        unfold fmap, result_fmap. by rewrite <- app_assoc.
      * apply IH.
Qed.

(** One iteration of the loop, started from an empty accumulator. *)
Lemma dedup_loop_cons paper rest seen_ids seen_titles :
  dedup_loop (paper :: rest) [] seen_ids seen_titles
  = c ← id_unseen (paper_id paper) seen_ids;
    if c : bool then
      k ← py_hash (paper_id paper);
      (cons paper) <$> dedup_loop rest [] ({[k]} ∪ seen_ids) seen_titles
    else if title_unseen (norm_title paper) seen_titles then
      (cons paper) <$> dedup_loop rest [] seen_ids ({[norm_title paper]} ∪ seen_titles)
    else dedup_loop rest [] seen_ids seen_titles.
Proof.
  simpl. destruct (id_unseen _ _) as [[|]|e]; simpl; [| |done].
  - destruct (py_hash _); simpl; [|done]. by rewrite dedup_loop_acc.
  - destruct (title_unseen _ _); [|done]. by rewrite dedup_loop_acc.
Qed.

Lemma dedup_loop_idem papers : ∀ seen_ids seen_titles out,
  dedup_loop papers [] seen_ids seen_titles = Ok out →
  dedup_loop out [] seen_ids seen_titles = Ok out.
Proof.
  induction papers as [|paper rest IH]; intros si st out.
  - simpl. by intros [= <-].
  - rewrite dedup_loop_cons.
    destruct (id_unseen _ si) as [[|]|e] eqn:Hid; simpl; [| |done].
    + destruct (py_hash _) as [k|e] eqn:Hk; simpl; [|done].
      intros (out' & Hout' & ->)%fmap_result_ok.
      rewrite dedup_loop_cons, Hid. simpl. rewrite Hk. simpl.
      by rewrite (IH _ _ _ Hout').
    + destruct (title_unseen _ st) eqn:Ht.
      * intros (out' & Hout' & ->)%fmap_result_ok.
        rewrite dedup_loop_cons, Hid. simpl. rewrite Ht.
        by rewrite (IH _ _ _ Hout').
      * apply IH.
Qed.

(** C3: the Deduplicator is idempotent: whenever [remove_duplicates]
    returns a list, applying it to that list returns the same records in
    the same order. *)
Theorem remove_duplicates_idempotent (papers out : list dict) :
  remove_duplicates papers = Ok out →
  remove_duplicates out = Ok out.
Proof. apply dedup_loop_idem. Qed.

Lemma remove_duplicates_idempotent_witness :
  remove_duplicates [ex_rec1; ex_rec1; ex_rec1; ex_rec3] = Ok [ex_rec1; ex_rec1] ∧
  remove_duplicates [ex_rec1; ex_rec1] = Ok [ex_rec1; ex_rec1].
Proof.
  split; [vm_compute; reflexivity|].
  apply (remove_duplicates_idempotent [ex_rec1; ex_rec1; ex_rec1; ex_rec3]).
  vm_compute. reflexivity.
Defined.

Lemma id_unseen_idless paper seen_ids :
  idless paper → id_unseen (paper_id paper) seen_ids = Ok false.
Proof. unfold idless, id_unseen. by intros ->. Qed.

Lemma id_unseen_true_not_idless paper seen_ids :
  id_unseen (paper_id paper) seen_ids = Ok true → ¬ idless paper.
Proof. intros H Hi. by rewrite (id_unseen_idless _ _ Hi) in H. Qed.

(** The title half of the invariant: the loop keeps an id-less record
    only when its normalized title is new. *)
Lemma dedup_loop_idless_titles papers : ∀ seen_ids (seen_titles : gset string) out,
  dedup_loop papers [] seen_ids seen_titles = Ok out →
  NoDup (norm_title <$> filter idless out) ∧
  ∀ paper, paper ∈ out → idless paper → norm_title paper ∉ seen_titles.
Proof.
  induction papers as [|paper rest IH]; intros si st out.
  - simpl. intros [= <-]. split; [constructor|]. intros ? []%elem_of_nil.
  - rewrite dedup_loop_cons.
    destruct (id_unseen _ si) as [[|]|e] eqn:Hid; simpl; [| |done].
    + destruct (py_hash _) as [k|e]; simpl; [|done].
      intros (out' & Hout' & ->)%fmap_result_ok.
      destruct (IH _ _ _ Hout') as [Hnd Hnew].
      apply id_unseen_true_not_idless in Hid.
      rewrite filter_cons_False by done. split; [done|].
      intros q [->|Hq]%elem_of_cons Hq'; [done|]. by apply Hnew.
    + destruct (title_unseen _ st) eqn:Ht; [|apply IH].
      intros (out' & Hout' & ->)%fmap_result_ok.
      destruct (IH _ _ _ Hout') as [Hnd Hnew].
      apply andb_prop in Ht as [_ Ht%bool_decide_eq_true].
      split.
      * destruct (decide (idless paper)) as [Hp|Hp].
        -- rewrite filter_cons_True by done. rewrite fmap_cons.
           constructor; [|done].
           intros (q & Heq & [Hq Hin]%list_elem_of_filter)%list_elem_of_fmap.
           specialize (Hnew q Hin Hq). rewrite <- Heq in Hnew.
           by apply Hnew, elem_of_union_l, elem_of_singleton.
        -- by rewrite filter_cons_False.
      * intros q [->|Hq]%elem_of_cons Hq'; [done|].
        specialize (Hnew q Hq Hq'). by apply not_elem_of_union in Hnew as [_ ?].
Qed.

Lemma remove_duplicates_idless_titles (papers out : list dict) :
  remove_duplicates papers = Ok out →
  NoDup (norm_title <$> filter idless out).
Proof. intros H. by destruct (dedup_loop_idless_titles _ _ _ _ H). Qed.

(** The loop raises only on an unhashable id. *)
Lemma dedup_loop_total papers : ∀ seen_ids seen_titles,
  Forall (λ paper, hashable (paper_id paper) ∨ idless paper) papers →
  ∃ out, dedup_loop papers [] seen_ids seen_titles = Ok out.
Proof.
  induction papers as [|paper rest IH]; intros si st Hall.
  - by exists [].
  - apply Forall_cons in Hall as [Hp Hrest]. rewrite dedup_loop_cons.
    assert (∃ c, id_unseen (paper_id paper) si = Ok c ∧
                 (c = true → ∃ k, py_hash (paper_id paper) = Ok k)) as (c & -> & Hc).
    { unfold id_unseen, idless in *. destruct (truthy _) eqn:Htr.
      - destruct Hp as [Hp|]; [|done].
        destruct (paper_id paper); simpl in *; try done; eauto.
      - eexists; split; [done|]. done. }
    simpl. destruct c.
    + destruct Hc as [k ->]; [done|]. simpl.
      destruct (IH ({[k]} ∪ si) st Hrest) as [out Hout]. rewrite Hout. by eexists.
    + destruct (title_unseen _ _).
      * destruct (IH si ({[norm_title paper]} ∪ st) Hrest) as [out Hout].
        rewrite Hout. by eexists.
      * by apply IH.
Qed.

(** C1: two copies of one record with a non-empty id are both kept by
    [remove_duplicates], so the output holds two records with the same
    non-empty id. *)
Theorem remove_duplicates_keeps_same_id :
  remove_duplicates [ex_rec1; ex_rec1] = Ok [ex_rec1; ex_rec1] ∧
  paper_id ex_rec1 = VStr "A".
Proof. split; vm_compute; reflexivity. Qed.

(** C2, as stated: the example does not yield exactly one record. *)
Lemma example_not_one_record :
  ¬ ∃ out, remove_duplicates ex_records = Ok out ∧ length out = 1%nat.
Proof.
  intros (out & Hout & Hlen).
  assert (remove_duplicates ex_records = Ok ex_records) as E by (vm_compute; reflexivity).
  rewrite E in Hout. injection Hout as <-. discriminate Hlen.
Qed.

(** C2, amended: on the three-record example the first record is kept
    through its id and the id-less third record is kept as well, because
    the title of a record kept through its id is not recorded among the
    seen titles; the output starts with the first record, ends with the
    third and has at least two records. *)
Theorem example_keeps_first_and_third :
  ∃ out, remove_duplicates ex_records = Ok out ∧
         head out = Some ex_rec1 ∧ last out = Some ex_rec3 ∧ (2 ≤ length out)%nat.
Proof.
  exists ex_records. split; [vm_compute; reflexivity|].
  repeat split. simpl. lia.
Qed.

(** ** Paginated Fetcher *)

Lemma extend_nil st : extend st [] [] = st.
Proof. destruct st. unfold extend. simpl. by rewrite !app_nil_r. Qed.

Lemma extend_extend st p1 r1 p2 r2 :
  extend (extend st p1 r1) p2 r2 = extend st (p1 ++ p2) (r1 ++ r2).
Proof. unfold extend. simpl. by rewrite !app_assoc. Qed.

Lemma process_work_extend q cat work st :
  process_work q cat work st
  = (extend st (all_papers (process_work q cat work empty_state).1) [],
     (process_work q cat work empty_state).2).
Proof.
  unfold process_work, mbind, fetch_bind, lift. 
  destruct (normalize_work q cat work) as [paper|e]; simpl.
  - destruct (in_target_years _) as [[|]|e]; simpl.
    + unfold extend. simpl. by rewrite app_nil_r.
    + by rewrite extend_nil.
    + by rewrite extend_nil.
  - by rewrite extend_nil.
Qed.

Lemma process_work_requests q cat work :
  requests (process_work q cat work empty_state).1 = [].
Proof.
  unfold process_work, mbind, fetch_bind, lift. 
  destruct (normalize_work q cat work) as [paper|e]; simpl; [|done].
  by destruct (in_target_years _) as [[|]|e].
Qed.

Lemma for_each_extend q cat works : ∀ st,
  for_each (process_work q cat) works st
  = (extend st (all_papers (for_each (process_work q cat) works empty_state).1) [],
     (for_each (process_work q cat) works empty_state).2).
Proof.
  induction works as [|work rest IH]; intros st; simpl.
  - unfold mret, fetch_ret. simpl. by rewrite extend_nil.
  - unfold mbind, fetch_bind.
    rewrite (process_work_extend q cat work st).
    destruct (process_work q cat work empty_state) as [st0 [[]|e]] eqn:Hw; simpl.
    + rewrite (IH (extend st _ _)), (IH st0).
      simpl. rewrite extend_extend. simpl.
      pose proof (process_work_requests q cat work) as Hr. rewrite Hw in Hr. simpl in Hr.
      destruct st0 as [ps rs]. simpl in *. subst rs. 
      unfold extend. simpl. by rewrite !app_nil_r.
    + done.
Qed.

Lemma for_each_requests q cat works :
  requests (for_each (process_work q cat) works empty_state).1 = [].
Proof.
  induction works as [|work rest IH]; simpl; [done|].
  unfold mbind, fetch_bind.
  pose proof (process_work_requests q cat work) as Hr.
  destruct (process_work q cat work empty_state) as [st0 [[]|e]]; simpl in *; [|done].
  rewrite for_each_extend. simpl. by rewrite Hr.
Qed.

(** One turn of the loop appends the papers of the page and one
    request, whatever the state it starts from. *)
Lemma fetch_page_extend server params q cat page st :
  let reply := server (page_request params page) in
  fetch_page server params q cat page st
  = (extend st (page_papers q cat params page reply) [page_request params page],
     page_outcome q cat params page reply).
Proof.
  intros reply. unfold page_papers, page_outcome, fetch_page, mbind, fetch_bind, http_get.
  fold reply. destruct reply as [|status text json]; simpl.
  { unfold extend. simpl. by rewrite app_nil_r. }
  destruct (negb (status =? 200)); simpl.
  { unfold extend. simpl. by rewrite app_nil_r. }
  unfold lift. destruct (response_json json) as [data|e]; simpl.
  2: { unfold extend. simpl. by rewrite app_nil_r. }
  destruct (py_get data "results" _) as [results|e]; simpl.
  2: { unfold extend. simpl. by rewrite app_nil_r. }
  destruct (negb (truthy results)); simpl.
  { unfold extend. simpl. by rewrite app_nil_r. }
  destruct (py_iter results) as [works|e]; simpl.
  2: { unfold extend. simpl. by rewrite app_nil_r. }
  rewrite (for_each_extend q cat works {| all_papers := all_papers st; requests := _ |}).
  rewrite (for_each_extend q cat works {| all_papers := []; requests := _ |}).
  pose proof (for_each_requests q cat works) as Hr.
  destruct (for_each (process_work q cat) works empty_state) as [[ps rs] [[]|e]];
    simpl in *; subst rs; [|unfold extend; simpl; by rewrite !app_nil_r].
  destruct (py_get data "meta" _) as [meta|e]; simpl;
    [|unfold extend; simpl; by rewrite !app_nil_r].
  destruct (py_get meta "count" _) as [count|e]; simpl;
    [|unfold extend; simpl; by rewrite !app_nil_r].
  destruct (page_reached page count _) as [reached|e]; simpl;
    unfold extend; simpl; by rewrite !app_nil_r.
Qed.

Lemma failed_outcome q cat params page reply :
  failed reply →
  page_papers q cat params page reply = [] ∧
  page_outcome q cat params page reply ≠ Ok Next_page.
Proof.
  unfold page_papers, page_outcome, fetch_page, mbind, fetch_bind, http_get.
  destruct reply as [|status text json]; simpl; [done|].
  intros Hs. destruct (Z.eqb_spec status 200) as [?|_]; [done|]. simpl. done.
Qed.

Lemma empty_page_outcome q cat params page reply :
  empty_page reply → page_outcome q cat params page reply = Ok Break.
Proof.
  intros (text & data & -> & Hres).
  unfold page_outcome, fetch_page, mbind, fetch_bind, http_get. simpl.
  by rewrite Hres.
Qed.

Lemma last_page_outcome q cat params page reply :
  last_page page (req_per_page params) reply →
  page_outcome q cat params page reply ≠ Ok Next_page.
Proof.
  intros (text & data & meta & c & -> & Hmeta & Hc & Hle).
  unfold page_outcome, fetch_page, mbind, fetch_bind, http_get. simpl.
  destruct (negb (truthy _)); simpl; [done|].
  destruct (py_iter _) as [works|e]; simpl; [|done].
  destruct (for_each _ works _) as [st [[]|e]]; simpl; [|done].
  rewrite Hmeta. simpl. unfold page_reached. rewrite Hc.
  destruct (_ <=? Z.abs c); simpl; [done|].
  destruct (Z.leb_spec c (page * req_per_page params)); [done|lia].
Qed.

Section Loop.
Variables (server : api) (params : request) (q cat : string).

Let outcome (p : Z) : result turn :=
  page_outcome q cat params p (server (page_request params p)).

(** The loop from [page] on: it ends after [n] turns, [n] pages at
    most up to page 10; every turn but the last ended in the next
    page; the last one did not, or was page 10. *)
Lemma fetch_loop_trace (fuel : nat) : ∀ page st,
  page ≤ 10 → (Z.to_nat (11 - page) ≤ fuel)%nat →
  ∃ n, 1 ≤ n ≤ 11 - page ∧
    fetch_loop fuel server params q cat page st
      = Some (extend st (pages_papers server q cat params page n) (page_requests params page n)) ∧
    (∀ p, page ≤ p < page + n - 1 → outcome p = Ok Next_page) ∧
    (outcome (page + n - 1) ≠ Ok Next_page ∨ page + n - 1 = 10).
Proof.
  induction fuel as [|fuel IH]; intros page st Hpage Hfuel; [lia|].
  simpl. rewrite fetch_page_extend. simpl.
  set (st1 := extend st _ _).
  assert (st1 = extend st (pages_papers server q cat params page 1)
                          (page_requests params page 1)) as one.
  { unfold st1, pages_papers, page_requests. rewrite seqZ_cons by lia.
    simpl. by rewrite app_nil_r. }
  destruct (page_outcome _ _ _ _ _) as [[|]|e] eqn:Hout.
  - exists 1. split; [lia|]. split; [by rewrite one|]. split; [intros; lia|].
    left. replace (page + 1 - 1) with page by lia. unfold outcome. by rewrite Hout.
  - destruct (Z.gtb_spec (page + 1) 10) as [Hgt|Hle].
    + exists 1. split; [lia|]. split; [by rewrite one|]. split; [intros; lia|].
      right. lia.
    + destruct (IH (page + 1) st1) as (n & Hn & Hrun & Hbefore & Hlast); [lia|lia|].
      exists (n + 1). split; [lia|]. split; [|split].
      * rewrite Hrun. f_equal. unfold st1. rewrite extend_extend.
        unfold pages_papers, page_requests.
        rewrite (seqZ_cons page (n + 1)) by lia. simpl.
        replace (Z.succ page) with (page + 1) by lia.
        by replace (Z.pred (n + 1)) with n by lia.
      * intros p Hp. destruct (decide (p = page)) as [->|Hne]; [done|].
        apply Hbefore. lia.
      * by replace (page + (n + 1) - 1) with (page + 1 + n - 1) by lia.
  - exists 1. split; [lia|]. split; [by rewrite one|]. split; [intros; lia|].
    left. replace (page + 1 - 1) with page by lia. unfold outcome. by rewrite Hout.
Qed.
End Loop.

Lemma length_page_requests params page n :
  0 ≤ n → length (page_requests params page n) = Z.to_nat n.
Proof. intros. unfold page_requests. by rewrite length_fmap, length_seqZ. Qed.

(** C4: with fuel for ten turns, [search_works] returns after
    requesting pages 1 to [n] for some [n] of at most 10, whatever the
    API replies (so also when every page is full and the reported total
    is arbitrarily large); and a requested page that has no results, or
    whose index reaches the page count of the reported total, is the
    last one requested. *)
Theorem search_works_page_cap (fuel : nat) (server : api) (email q cat : string) (ys ye : Z) :
  (10 ≤ fuel)%nat →
  ∃ st n, search_works fuel server email q cat ys ye = Some st ∧
    1 ≤ n ≤ 10 ∧
    requests st = page_requests (title_params email q ys ye) 1 n ∧
    (length (requests st) ≤ 10)%nat ∧
    ∀ p, 1 ≤ p ≤ n →
      empty_page (server (page_request (title_params email q ys ye) p)) ∨
      last_page p 200 (server (page_request (title_params email q ys ye) p)) →
      p = n.
Proof.
  intros Hfuel. unfold search_works.
  destruct (fetch_loop_trace server (title_params email q ys ye) q cat fuel 1 empty_state)
    as (n & Hn & Hrun & Hbefore & _); [lia|lia|].
  eexists _, n. split; [exact Hrun|]. split; [lia|]. split; [done|]. split.
  - simpl. rewrite length_page_requests by lia. lia.
  - intros p Hp Hstop. destruct (decide (p = n)) as [|Hne]; [done|].
    specialize (Hbefore p ltac:(lia)). destruct Hstop as [He|Hl].
    + by rewrite (empty_page_outcome _ _ _ _ _ He) in Hbefore.
    + by apply (last_page_outcome q cat (title_params email q ys ye)) in Hl.
Qed.

Lemma pages_papers_snoc server q cat params page n :
  0 ≤ n →
  pages_papers server q cat params page (n + 1)
  = pages_papers server q cat params page n
    ++ page_papers q cat params (page + n) (server (page_request params (page + n))).
Proof.
  intros Hn. unfold pages_papers. rewrite seqZ_app by lia.
  rewrite fmap_app, concat_app. f_equal.
  rewrite seqZ_cons by lia. simpl. by rewrite app_nil_r.
Qed.

(** C9: when the pages before page [n] each led on to the next page and
    the reply to the request for page [n] is a failure (a status other
    than 200, or a transport exception), [search_works] returns (it
    does not raise) exactly the papers of pages 1 to [n - 1], and the
    requests it issued are those for pages 1 to [n], each once. *)
Theorem search_works_failure_keeps_partial (fuel : nat) (server : api)
    (email q cat : string) (ys ye n : Z) :
  (10 ≤ fuel)%nat →
  1 ≤ n ≤ 10 →
  (∀ p, 1 ≤ p < n →
     page_outcome q cat (title_params email q ys ye) p
       (server (page_request (title_params email q ys ye) p)) = Ok Next_page) →
  failed (server (page_request (title_params email q ys ye) n)) →
  search_works fuel server email q cat ys ye
  = Some {| all_papers := pages_papers server q cat (title_params email q ys ye) 1 (n - 1);
            requests := page_requests (title_params email q ys ye) 1 n |}.
Proof.
  intros Hfuel Hn Hgood Hfail. unfold search_works.
  destruct (fetch_loop_trace server (title_params email q ys ye) q cat fuel 1 empty_state)
    as (m & Hm & Hrun & Hbefore & Hlast); [lia|lia|].
  destruct (failed_outcome q cat (title_params email q ys ye) n _ Hfail) as [Hnil Hstop].
  assert (m = n) as ->.
  { destruct (Z.lt_trichotomy m n) as [Hlt|[Heq|Hgt]]; [|done|].
    - destruct Hlast as [Hlast|Hlast]; [|lia].
      exfalso. apply Hlast, Hgood. lia.
    - exfalso. apply Hstop, Hbefore. lia. }
  rewrite Hrun. f_equal. unfold extend. simpl. f_equal.
  replace n with ((n - 1) + 1) at 1 by lia.
  rewrite pages_papers_snoc by lia.
  replace (1 + (n - 1)) with n by lia. by rewrite Hnil, app_nil_r.
Qed.

(** ** Year filter *)

Lemma in_target_years_true (year : value) :
  in_target_years year = Ok true → ∃ y, year = VInt y ∧ 2020 ≤ y ≤ 2025.
Proof.
  unfold in_target_years. destruct (truthy year); [|done].
  destruct year as [|b|y| | |]; simpl; try done.
  - destruct b; simpl; done.
  - intros [= [H1 H2]%andb_prop]. exists y. split; [done|]. lia.
Qed.

Lemma process_work_in_window q cat work :
  Forall in_window (all_papers (process_work q cat work empty_state).1).
Proof.
  unfold process_work, mbind, fetch_bind, lift.
  destruct (normalize_work q cat work) as [paper|e]; simpl; [|constructor].
  destruct (in_target_years _) as [[|]|e] eqn:Hy; simpl; try constructor; [|constructor].
  by apply in_target_years_true.
Qed.

Lemma for_each_in_window q cat works :
  Forall in_window (all_papers (for_each (process_work q cat) works empty_state).1).
Proof.
  induction works as [|work rest IH]; simpl; [constructor|].
  unfold mbind, fetch_bind.
  pose proof (process_work_in_window q cat work) as Hw.
  destruct (process_work q cat work empty_state) as [st0 [[]|e]]; simpl in *; [|done].
  rewrite for_each_extend. simpl. by apply Forall_app.
Qed.

Lemma page_papers_in_window q cat params page reply :
  Forall in_window (page_papers q cat params page reply).
Proof.
  unfold page_papers, fetch_page, mbind, fetch_bind, http_get.
  destruct reply as [|status text json]; simpl; [constructor|].
  destruct (negb (status =? 200)); simpl; [constructor|].
  unfold lift. destruct (response_json json) as [data|e]; simpl; [|constructor].
  destruct (py_get data "results" _) as [results|e]; simpl; [|constructor].
  destruct (negb (truthy results)); simpl; [constructor|].
  destruct (py_iter results) as [works|e]; simpl; [|constructor].
  rewrite (for_each_extend q cat works {| all_papers := []; requests := _ |}).
  pose proof (for_each_in_window q cat works) as Hw.
  destruct (for_each (process_work q cat) works empty_state) as [[ps rs] [[]|e]];
    simpl in *; [|done].
  destruct (py_get data "meta" _) as [meta|e]; simpl; [|done].
  destruct (py_get meta "count" _) as [count|e]; simpl; [|done].
  by destruct (page_reached page count _) as [reached|e].
Qed.

Lemma pages_papers_in_window server q cat params page n :
  Forall in_window (pages_papers server q cat params page n).
Proof.
  unfold pages_papers. apply Forall_concat, Forall_fmap, Forall_forall.
  intros p _. apply page_papers_in_window.
Qed.

Lemma abstract_paper_in_window q cat work paper :
  abstract_paper q cat work = Ok (Some paper) → in_window paper.
Proof.
  unfold abstract_paper. destruct work as [| | | | |d]; try done. simpl.
  destruct (in_target_years _) as [[|]|e] eqn:Hy; simpl; [|done|done].
  intros [= <-]. by apply in_target_years_true.
Qed.

Lemma abstract_papers_Forall (P : dict → Prop) q cat :
  (∀ work paper, abstract_paper q cat work = Ok (Some paper) → P paper) →
  ∀ works papers out,
    Forall P papers →
    abstract_papers q cat works papers = Ok out →
    Forall P out.
Proof.
  intros HP. induction works as [|work rest IH]; intros papers out Hin; simpl.
  - by intros [= <-].
  - destruct (abstract_paper q cat work) as [[paper|]|e] eqn:Hp; simpl; [| |done].
    + apply IH, Forall_app. split; [done|].
      constructor; [|constructor]. by eapply HP.
    + by apply IH.
Qed.

Lemma search_by_abstract_Forall (P : dict → Prop) server email q cat ys ye :
  (∀ work paper, abstract_paper q cat work = Ok (Some paper) → P paper) →
  Forall P (search_by_abstract server email q cat ys ye).
Proof.
  intros HP. unfold search_by_abstract, abstract_try.
  destruct (server _) as [|status text json]; [constructor|].
  destruct (status =? 200); [|constructor].
  destruct (response_json json) as [data|e]; simpl; [|constructor].
  destruct (py_get data "results" _) as [results|e]; simpl; [|constructor].
  destruct (py_iter results) as [works|e]; simpl; [|constructor].
  destruct (abstract_papers q cat works []) as [out|e] eqn:Hout; [|constructor].
  by eapply abstract_papers_Forall.
Qed.

(** C5: every Paper returned by either strategy carries an integer
    year between 2020 and 2025, whatever the year range asked for and
    whatever the API replies; with fuel for ten turns [search_works]
    does return. *)
Theorem year_filter_sound (fuel : nat) (server : api) (email q cat : string)
    (ys ye ys' ye' : Z) :
  (10 ≤ fuel)%nat →
  (∃ st, search_works fuel server email q cat ys ye = Some st ∧
         Forall in_window (all_papers st)) ∧
  Forall in_window (search_by_abstract server email q cat ys' ye').
Proof.
  intros Hfuel. split.
  - unfold search_works.
    destruct (fetch_loop_trace server (title_params email q ys ye) q cat fuel 1 empty_state)
      as (n & _ & Hrun & _); [lia|lia|].
    eexists. split; [exact Hrun|]. simpl. apply pages_papers_in_window.
  - apply search_by_abstract_Forall. apply abstract_paper_in_window.
Qed.

Lemma year_filter_sound_witness :
  (∃ st, search_works 10 endless_server "me@example.org" "energy hub" "core" 2004 2025 = Some st ∧
         Forall in_window (all_papers st)) ∧
  Forall in_window (search_by_abstract endless_server "me@example.org" "energy hub" "core" 1990 2030).
Proof. apply (year_filter_sound 10). lia. Defined.

Lemma search_works_page_cap_witness :
  ∃ st n, search_works 10 endless_server "me@example.org" "energy hub" "core" 2004 2025 = Some st ∧
    1 ≤ n ≤ 10 ∧
    requests st = page_requests (title_params "me@example.org" "energy hub" 2004 2025) 1 n ∧
    (length (requests st) ≤ 10)%nat ∧
    ∀ p, 1 ≤ p ≤ n →
      empty_page (endless_server (page_request (title_params "me@example.org" "energy hub" 2004 2025) p)) ∨
      last_page p 200 (endless_server (page_request (title_params "me@example.org" "energy hub" 2004 2025) p)) →
      p = n.
Proof. apply (search_works_page_cap 10). lia. Defined.

(** An API of full pages is asked for exactly ten pages. *)
Example endless_server_ten_requests :
  (λ st, req_page <$> requests st)
    <$> search_works 10 endless_server "me@example.org" "energy hub" "core" 2004 2025
  = Some (Some <$> seqZ 1 10).
Proof. vm_compute. reflexivity. Qed.

Lemma search_works_failure_keeps_partial_witness :
  search_works 10 failing_server "me@example.org" "energy hub" "core" 2004 2025
  = Some {| all_papers :=
              pages_papers failing_server "energy hub" "core"
                (title_params "me@example.org" "energy hub" 2004 2025) 1 (3 - 1);
            requests := page_requests (title_params "me@example.org" "energy hub" 2004 2025) 1 3 |}.
Proof.
  apply (search_works_failure_keeps_partial 10); [lia|lia| |].
  - intros p Hp. assert (p = 1 ∨ p = 2) as [->| ->] by lia; vm_compute; reflexivity.
  - vm_compute. discriminate.
Defined.

(** ** Record Normalizer *)

(** C8: a work whose [open_access] field is [null] makes the
    normalization raise [AttributeError]; inside [search_works] the
    exception ends the query, and the complete work that follows on the
    same page is lost with it. *)
Theorem normalize_null_open_access_raises :
  normalize_work "energy hub" "core" null_open_access_work = Raise AttributeError ∧
  (λ st, paper_id <$> all_papers st)
    <$> search_works 10 null_field_server "me@example.org" "energy hub" "core" 2004 2025
  = Some [VStr "W1"].
Proof. split; vm_compute; reflexivity. Qed.

(** A work with no field at all gets the default values. *)
Lemma normalize_missing_fields q cat :
  normalize_work q cat (VDict [])
  = Ok [("id", VStr ""); ("title", VStr ""); ("year", VNone); ("doi", VNone);
        ("citation_count", VInt 0); ("open_access", VBool false);
        ("venue", VStr ""); ("authors", VList []);
        ("abstract_inverted", VDict []);
        ("search_term", VStr q); ("category", VStr cat); ("source", VStr "openalex")].
Proof. reflexivity. Qed.

(** The venue is empty when either level of nesting is absent or null. *)
Lemma extract_venue_default (work : dict) :
  let primary_location := dict_get work "primary_location" (VDict []) in
  truthy primary_location = false ∨
  (∃ loc, primary_location = VDict loc ∧ truthy (dict_get loc "source" (VDict [])) = false) →
  extract_venue (VDict work) = Ok (VStr "").
Proof.
  unfold extract_venue. simpl. intros [Hn|(loc & Hloc & Hsrc)].
  - by rewrite Hn.
  - rewrite Hloc. destruct (truthy (VDict loc)); [|done]. simpl. by rewrite Hsrc.
Qed.




(** ** Aggregator *)

Lemma summary_row_of_totals y yd row :
  summary_row_of y yd = Ok row → row_totals row.
Proof.
  unfold summary_row_of.
  destruct (citation_sum (yd_core yd)) as [c|e]; simpl; [|done].
  destruct (citation_sum (yd_related yd)) as [r|e]; simpl; [|done].
  intros [= <-]. by repeat split.
Qed.

Lemma summary_loop_totals annual_data years : ∀ stats core combined stats' core' combined',
  Forall row_totals stats →
  summary_loop annual_data years stats core combined = Ok (stats', core', combined') →
  Forall row_totals stats'.
Proof.
  induction years as [|y rest IH]; intros stats core combined stats' core' combined' Hin; simpl.
  - by intros [= <- _ _].
  - unfold year_tables.
    destruct (summary_row_of y _) as [row|e] eqn:Hrow; simpl; [|done].
    destruct (mapM _ (yd_core _)) as [cd|e]; simpl; [|done].
    destruct (mapM _ (List.filter _ _)) as [ad|e]; simpl; [|done].
    apply IH, Forall_app. split; [done|].
    constructor; [|constructor]. by eapply summary_row_of_totals.
Qed.

Lemma summary_rows_totals (papers : list dict) (reports : annual_reports) :
  save_annual_summary_csvs papers = Ok (Some reports) →
  Forall row_totals (summary reports).
Proof.
  unfold save_annual_summary_csvs. destruct papers as [|paper rest]; [done|].
  destruct (summary_loop _ _ [] [] []) as [[[stats core] combined]|e] eqn:Hloop; simpl; [|done].
  destruct (growth_rates _) as [rates|e]; simpl; [|done].
  intros [= <-]. simpl. eapply summary_loop_totals; [|exact Hloop]. constructor.
Qed.

(** C6: in every row of the annual summary table that
    [save_annual_summary_csvs] returns, the total of papers, of
    citations and of open-access papers is the sum of the core and the
    related column. *)
Theorem annual_summary_totals (papers : list dict) (reports : annual_reports) :
  save_annual_summary_csvs papers = Ok (Some reports) →
  Forall row_totals (summary reports).
Proof. apply summary_rows_totals. Qed.

Lemma annual_summary_totals_witness :
  ∃ reports, save_annual_summary_csvs sample_papers = Ok (Some reports) ∧
             (year <$> summary reports) = [2020; 2021; 2022; 2023] ∧
             Forall row_totals (summary reports).
Proof.
  eexists. split; [vm_compute; reflexivity|]. split; [reflexivity|].
  apply (annual_summary_totals sample_papers). vm_compute. reflexivity.
Defined.

(** ** Growth rates *)

Lemma growth_ok prev curr :
  ∃ g, growth prev curr = Ok g ∧
       (prev ≤ 0 → g = inject_Z 0) ∧
       (0 < prev → g = (inject_Z (curr - prev) / inject_Z prev * inject_Z 100)%Q).
Proof.
  unfold growth, py_truediv. destruct (Z.gtb_spec prev 0) as [Hpos|Hle].
  - destruct (Z.eqb_spec prev 0) as [->|_]; [lia|]. simpl.
    eexists. split; [done|]. split; [lia|done].
  - eexists. split; [done|]. split; [done|lia].
Qed.

Lemma growth_rates_spec (totals : list Z) :
  ∃ rates, growth_rates totals = Ok rates ∧
    length rates = pred (length totals) ∧
    ∀ (i : nat) prev curr, totals !! i = Some prev → totals !! S i = Some curr →
      ∃ g, rates !! i = Some g ∧
           (prev ≤ 0 → g = inject_Z 0) ∧
           (0 < prev → g = (inject_Z (curr - prev) / inject_Z prev * inject_Z 100)%Q).
Proof.
  induction totals as [|prev rest IH]; [by exists []|].
  destruct rest as [|curr rest'].
  - exists []. split; [done|]. split; [done|]. intros i ?? _ H. by destruct i.
  - destruct IH as (rates & Hrates & Hlen & Hall).
    destruct (growth_ok prev curr) as (g & Hg & Hzero & Hpos).
    exists (g :: rates). split; [|split].
    + change (growth_rates (prev :: curr :: rest'))
        with (g ← growth prev curr; gs ← growth_rates (curr :: rest'); Ok (g :: gs)).
      rewrite Hg. cbn [mbind result_bind]. by rewrite Hrates.
    + simpl in *. by rewrite Hlen.
    + intros [|i] p c Hp Hc.
      * simpl in *. injection Hp as <-. injection Hc as <-. by exists g.
      * by apply (Hall i).
Qed.

(** Both call sites go through this loop and return. *)
Lemma chart_growth_rates_total papers : ∃ rates, chart_growth_rates papers = Ok rates.
Proof.
  destruct (growth_rates_spec (chart_total_counts papers)) as (rates & H & _). by exists rates.
Qed.

Lemma save_annual_summary_growth papers reports :
  save_annual_summary_csvs papers = Ok (Some reports) →
  growth_rates (total_papers <$> summary reports) = Ok (growth_analysis reports).
Proof.
  unfold save_annual_summary_csvs. destruct papers as [|paper rest]; [done|].
  destruct (summary_loop _ _ [] [] []) as [[[stats core] combined]|e]; simpl; [|done].
  destruct (growth_rates _) as [rates|e] eqn:Hr; simpl; [|done].
  by intros [= <-].
Qed.

(** C7: the growth loop of the summary and of the trend chart never
    raises (no division by zero) and yields one rate per year after the
    first; the rate after a year whose total is 0 is exactly 0, and
    after a year with a positive total it is
    (current - previous) / previous * 100. *)
Theorem growth_rate_boundary (totals : list Z) :
  ∃ rates, growth_rates totals = Ok rates ∧
    length rates = pred (length totals) ∧
    ∀ (i : nat) prev curr, totals !! i = Some prev → totals !! S i = Some curr →
      ∃ g, rates !! i = Some g ∧
           (prev ≤ 0 → g = inject_Z 0) ∧
           (0 < prev → g = (inject_Z (curr - prev) / inject_Z prev * inject_Z 100)%Q).
Proof. apply growth_rates_spec. Qed.

Lemma growth_rate_boundary_witness :
  ∃ rates, growth_rates [0; 4; 6] = Ok rates ∧
    length rates = pred (length [0; 4; 6]) ∧
    ∀ (i : nat) prev curr, [0; 4; 6] !! i = Some prev → [0; 4; 6] !! S i = Some curr →
      ∃ g, rates !! i = Some g ∧
           (prev ≤ 0 → g = inject_Z 0) ∧
           (0 < prev → g = (inject_Z (curr - prev) / inject_Z prev * inject_Z 100)%Q).
Proof. apply (growth_rate_boundary [0; 4; 6]). Defined.

Example growth_rates_from_zero :
  growth_rates [0; 4; 6] = Ok [inject_Z 0; (inject_Z 2 / inject_Z 4 * inject_Z 100)%Q].
Proof. reflexivity. Qed.

(** ** What the rows count *)

Lemma organize_snoc papers paper :
  organize (papers ++ [paper]) = organize_step (organize papers) paper.
Proof. unfold organize. by rewrite foldl_app. Qed.

(** The buckets of a year hold the papers of that year, in input order. *)
Lemma organize_lookup (papers : list dict) (y : Z) :
  let yd := default empty_year_data (organize papers !! y) in
  yd_core yd = List.filter (in_bucket y "core") papers ∧
  yd_related yd = List.filter (in_bucket y "related") papers ∧
  yd_all yd = List.filter (in_year y) papers.
Proof.
  induction papers as [|paper papers IH] using rev_ind; [done|].
  rewrite organize_snoc, !List.filter_app. simpl.
  destruct IH as (IHc & IHr & IHa).
  unfold organize_step, in_bucket, in_year.
  destruct (summary_year (dict_get paper "year" VNone)) as [y'|] eqn:Hy.
  - destruct (decide (y' = y)) as [->|Hne].
    + rewrite lookup_insert_eq. simpl.
      rewrite !bool_decide_eq_true_2 by done. simpl.
      rewrite IHc, IHr, IHa.
      repeat split; by destruct (py_eq_str _ _); rewrite ?app_nil_r.
    + rewrite lookup_insert_ne by done.
      rewrite !bool_decide_eq_false_2 by congruence. simpl.
      by rewrite !app_nil_r.
  - rewrite !bool_decide_eq_false_2 by done. simpl. by rewrite !app_nil_r.
Qed.

Lemma summary_row_of_year y yd row : summary_row_of y yd = Ok row → year row = y.
Proof.
  unfold summary_row_of.
  destruct (citation_sum (yd_core yd)) as [c|e]; simpl; [|done].
  destruct (citation_sum (yd_related yd)) as [r|e]; simpl; [|done].
  by intros [= <-].
Qed.

Lemma summary_row_of_counts y yd row :
  summary_row_of y yd = Ok row →
  core_papers row = Z.of_nat (length (yd_core yd)) ∧
  related_papers row = Z.of_nat (length (yd_related yd)) ∧
  core_open_access row = open_access_count (yd_core yd) ∧
  related_open_access row = open_access_count (yd_related yd).
Proof.
  unfold summary_row_of.
  destruct (citation_sum (yd_core yd)) as [c|e]; simpl; [|done].
  destruct (citation_sum (yd_related yd)) as [r|e]; simpl; [|done].
  by intros [= <-].
Qed.

Lemma summary_loop_rows annual_data years : ∀ stats core combined stats' core' combined',
  Forall (λ row, summary_row_of (year row)
                   (default empty_year_data (annual_data !! year row)) = Ok row) stats →
  summary_loop annual_data years stats core combined = Ok (stats', core', combined') →
  Forall (λ row, summary_row_of (year row)
                   (default empty_year_data (annual_data !! year row)) = Ok row) stats'.
Proof.
  induction years as [|y rest IH]; intros stats core combined stats' core' combined' Hin; simpl.
  - by intros [= <- _ _].
  - unfold year_tables.
    destruct (summary_row_of y _) as [row|e] eqn:Hrow; simpl; [|done].
    destruct (mapM _ (yd_core _)) as [cd|e]; simpl; [|done].
    destruct (mapM _ (List.filter _ _)) as [ad|e]; simpl; [|done].
    apply IH, Forall_app. split; [done|].
    constructor; [|constructor]. by rewrite (summary_row_of_year _ _ _ Hrow).
Qed.

(** The counts of a row, in terms of the input of the Aggregator. *)
Lemma annual_summary_counts (papers : list dict) (reports : annual_reports) :
  save_annual_summary_csvs papers = Ok (Some reports) →
  Forall (λ row,
    core_papers row = Z.of_nat (length (List.filter (in_bucket (year row) "core") papers)) ∧
    related_papers row = Z.of_nat (length (List.filter (in_bucket (year row) "related") papers)) ∧
    core_open_access row = open_access_count (List.filter (in_bucket (year row) "core") papers) ∧
    related_open_access row
      = open_access_count (List.filter (in_bucket (year row) "related") papers))
    (summary reports).
Proof.
  unfold save_annual_summary_csvs. destruct papers as [|paper rest]; [done|].
  set (papers := paper :: rest).
  destruct (summary_loop _ _ [] [] []) as [[[stats core] combined]|e] eqn:Hloop; simpl; [|done].
  destruct (growth_rates _) as [rates|e]; simpl; [|done].
  intros [= <-]. simpl.
  eapply Forall_impl; [eapply summary_loop_rows; [|exact Hloop]; constructor|].
  intros row Hrow. simpl in Hrow.
  destruct (organize_lookup papers (year row)) as (Hc & Hr & _).
  apply summary_row_of_counts in Hrow. by rewrite Hc, Hr in Hrow.
Qed.

(** ** Abstract strategy and open access *)

Lemma abstract_paper_no_open_access q cat work paper :
  abstract_paper q cat work = Ok (Some paper) →
  dict_has paper "open_access" = false ∧ is_open_access paper = false.
Proof.
  unfold abstract_paper. destruct work as [| | | | |d]; try done. simpl.
  destruct (in_target_years _) as [[|]|e]; simpl; [|done|done].
  by intros [= <-].
Qed.

Lemma open_access_count_none papers :
  Forall (λ paper, is_open_access paper = false) papers → open_access_count papers = 0.
Proof.
  intros H. unfold open_access_count.
  induction H as [|paper rest Hp _ IH]; simpl; [done|]. by rewrite Hp.
Qed.

Lemma open_access_count_filter_none (f : dict → bool) papers :
  Forall (λ paper, is_open_access paper = false) papers →
  open_access_count (List.filter f papers) = 0.
Proof.
  intros H. apply open_access_count_none.
  induction H as [|paper rest Hp _ IH]; simpl; [constructor|].
  destruct (f paper); [by constructor|done].
Qed.

(** C10: a Paper of the abstract strategy has no [open_access] key, so
    the test the Aggregator counts with, [p.get('open_access', False)],
    is false for it, whatever the API said about the work: the
    open-access count of these Papers is 0, and so is every open-access
    column of a summary table built from them. *)
Theorem abstract_papers_never_open_access (server : api) (email q cat : string) (ys ye : Z) :
  Forall (λ paper, dict_has paper "open_access" = false ∧ is_open_access paper = false)
         (search_by_abstract server email q cat ys ye) ∧
  open_access_count (search_by_abstract server email q cat ys ye) = 0 ∧
  ∀ reports,
    save_annual_summary_csvs (search_by_abstract server email q cat ys ye) = Ok (Some reports) →
    Forall (λ row, core_open_access row = 0 ∧ related_open_access row = 0 ∧
                   total_open_access row = 0) (summary reports).
Proof.
  assert (Forall (λ paper, dict_has paper "open_access" = false ∧ is_open_access paper = false)
                 (search_by_abstract server email q cat ys ye)) as H.
  { apply search_by_abstract_Forall. apply abstract_paper_no_open_access. }
  assert (Forall (λ paper, is_open_access paper = false)
                 (search_by_abstract server email q cat ys ye)) as H'.
  { eapply Forall_impl; [exact H|]. by intros paper [_ ?]. }
  split; [done|]. split; [by apply open_access_count_none|].
  intros reports Hrep.
  pose proof (summary_rows_totals _ _ Hrep) as Htot.
  pose proof (annual_summary_counts _ _ Hrep) as Hcnt.
  rewrite Forall_forall in Htot, Hcnt. apply Forall_forall. intros row Hrow.
  destruct (Htot row Hrow) as (_ & _ & Hsum).
  destruct (Hcnt row Hrow) as (_ & _ & Hc & Hr).
  rewrite Hsum, Hc, Hr, !open_access_count_filter_none by done. done.
Qed.

(** The open-access work of [endless_server] comes out of the abstract
    strategy without the flag. *)
Example abstract_drops_flag :
  search_by_abstract endless_server "me@example.org" "energy hub" "related" 2020 2025
  = [[("id", VStr "W1"); ("title", VStr "Energy hub planning"); ("year", VInt 2021);
      ("citation_count", VInt 4); ("search_term", VStr "energy hub");
      ("category", VStr "related"); ("source", VStr "openalex_abstract")]].
Proof. vm_compute. reflexivity. Qed.

(** * Further properties *)

(** ** Deduplicator *)

Lemma dedup_loop_sublist papers : ∀ seen_ids seen_titles out,
  dedup_loop papers [] seen_ids seen_titles = Ok out → sublist out papers.
Proof.
  induction papers as [|paper rest IH]; intros si st out.
  - simpl. intros [= <-]. constructor.
  - rewrite dedup_loop_cons.
    destruct (id_unseen _ si) as [[|]|e]; simpl; [| |done].
    + destruct (py_hash _) as [k|e]; simpl; [|done].
      intros (out' & Hout' & ->)%fmap_result_ok. apply sublist_skip. by eapply IH.
    + destruct (title_unseen _ st).
      * intros (out' & Hout' & ->)%fmap_result_ok. apply sublist_skip. by eapply IH.
      * intros H. apply sublist_cons. by eapply IH.
Qed.

(** X1: the list [remove_duplicates] returns is a subsequence of its
    input: every kept record is an input record, and the kept records
    stand in input order. *)
Theorem remove_duplicates_sublist (papers out : list dict) :
  remove_duplicates papers = Ok out → sublist out papers.
Proof. apply dedup_loop_sublist. Qed.

Lemma remove_duplicates_sublist_witness :
  sublist [ex_rec1; ex_rec1] [ex_rec1; ex_rec1; ex_rec1; ex_rec3].
Proof.
  apply (remove_duplicates_sublist [ex_rec1; ex_rec1; ex_rec1; ex_rec3]).
  vm_compute. reflexivity.
Defined.

Lemma dedup_loop_idless_title_nonempty papers : ∀ seen_ids seen_titles out,
  dedup_loop papers [] seen_ids seen_titles = Ok out →
  Forall (λ paper, idless paper → norm_title paper ≠ "") out.
Proof.
  induction papers as [|paper rest IH]; intros si st out.
  - simpl. intros [= <-]. constructor.
  - rewrite dedup_loop_cons.
    destruct (id_unseen _ si) as [[|]|e] eqn:Hid; simpl; [| |done].
    + destruct (py_hash _) as [k|e]; simpl; [|done].
      intros (out' & Hout' & ->)%fmap_result_ok. constructor; [|by eapply IH].
      intros Hi. by apply id_unseen_true_not_idless in Hid.
    + destruct (title_unseen _ st) eqn:Ht; [|apply IH].
      intros (out' & Hout' & ->)%fmap_result_ok. constructor; [|by eapply IH].
      intros _ Hempty. unfold title_unseen in Ht. by rewrite Hempty in Ht.
Qed.

(** X2: among the records [remove_duplicates] keeps, those with a
    falsy id have pairwise different normalized titles, and none of
    them has an empty normalized title. *)
Theorem remove_duplicates_idless_distinct (papers out : list dict) :
  remove_duplicates papers = Ok out →
  NoDup (norm_title <$> filter idless out) ∧
  Forall (λ paper, idless paper → norm_title paper ≠ "") out.
Proof.
  intros H. split.
  - by eapply remove_duplicates_idless_titles.
  - by eapply dedup_loop_idless_title_nonempty.
Qed.

Lemma remove_duplicates_idless_distinct_witness :
  NoDup (norm_title <$> filter idless [ex_rec3]) ∧
  Forall (λ paper, idless paper → norm_title paper ≠ "") [ex_rec3].
Proof.
  apply (remove_duplicates_idless_distinct [ex_rec3; ex_rec3; [("id", VNone)]]).
  vm_compute. reflexivity.
Defined.

Lemma hashable_py_hash v : hashable v ↔ ∃ k, py_hash v = Ok k.
Proof. destruct v; simpl; split; try done; eauto; by intros [? ?]. Qed.

Lemma dedup_loop_ok_hashable papers : ∀ seen_ids seen_titles out,
  dedup_loop papers [] seen_ids seen_titles = Ok out →
  Forall (λ paper, hashable (paper_id paper) ∨ idless paper) papers.
Proof.
  induction papers as [|paper rest IH]; intros si st out; [constructor|].
  rewrite dedup_loop_cons.
  assert (∀ c, id_unseen (paper_id paper) si = Ok c →
               hashable (paper_id paper) ∨ idless paper) as Hhead.
  { unfold id_unseen, idless. destruct (truthy _); [|by right].
    destruct (py_hash _) eqn:Hk; simpl; [|done]. intros _ _. left.
    apply hashable_py_hash. eauto. }
  destruct (id_unseen _ si) as [[|]|e] eqn:Hid; simpl; [| |done].
  - destruct (py_hash _) as [k|e]; simpl; [|done].
    intros (out' & Hout' & ->)%fmap_result_ok. constructor; [by eapply Hhead|by eapply IH].
  - destruct (title_unseen _ st).
    + intros (out' & Hout' & ->)%fmap_result_ok. constructor; [by eapply Hhead|by eapply IH].
    + intros H. constructor; [by eapply Hhead|by eapply IH].
Qed.

Lemma dedup_loop_raise_type papers : ∀ seen_ids seen_titles e,
  dedup_loop papers [] seen_ids seen_titles = Raise e → e = TypeError.
Proof.
  induction papers as [|paper rest IH]; intros si st e; [done|].
  rewrite dedup_loop_cons.
  assert (∀ e', py_hash (paper_id paper) = Raise e' → e' = TypeError) as Hh.
  { destruct (paper_id paper); simpl; try done; by intros ? [= <-]. }
  destruct (id_unseen _ si) as [[|]|e'] eqn:Hid; simpl.
  - destruct (py_hash _) as [k|e'] eqn:Hk; simpl.
    + destruct (dedup_loop rest [] _ _) eqn:Hr; simpl; [done|]. intros [= <-]. by eapply IH.
    + intros [= <-]. by apply Hh.
  - destruct (title_unseen _ st).
    + destruct (dedup_loop rest [] _ _) eqn:Hr; simpl; [done|]. intros [= <-]. by eapply IH.
    + apply IH.
  - intros [= <-]. unfold id_unseen in Hid. destruct (truthy _); [|done].
    destruct (py_hash _) eqn:Hk; simpl in Hid; [done|]. injection Hid as <-. by apply Hh.
Qed.

(** X3: [remove_duplicates] returns a list exactly when every record
    has an id that is falsy or hashable (not a list or a dict);
    otherwise it raises, and what it raises is [TypeError]. *)
Theorem remove_duplicates_returns_iff (papers : list dict) :
  ((∃ out, remove_duplicates papers = Ok out) ↔
   Forall (λ paper, hashable (paper_id paper) ∨ idless paper) papers) ∧
  (∀ e, remove_duplicates papers = Raise e → e = TypeError).
Proof.
  split; [split|].
  - intros [out H]. by eapply dedup_loop_ok_hashable.
  - apply dedup_loop_total.
  - apply dedup_loop_raise_type.
Qed.

Example remove_duplicates_unhashable_id :
  remove_duplicates [ex_rec1; [("id", VList [VInt 1]); ("title", VStr "T")]] = Raise TypeError.
Proof. vm_compute. reflexivity. Qed.

Lemma dedup_loop_ids_kept papers : ∀ (seen_ids : gset key) seen_titles out,
  dedup_loop papers [] seen_ids seen_titles = Ok out →
  ∀ paper, paper ∈ papers → ¬ idless paper →
    ∃ k, py_hash (paper_id paper) = Ok k ∧
         (k ∈ seen_ids ∨ ∃ kept, kept ∈ out ∧ py_hash (paper_id kept) = Ok k).
Proof.
  induction papers as [|head rest IH]; intros si st out Hrun paper Hin Hid.
  { by apply elem_of_nil in Hin. }
  rewrite dedup_loop_cons in Hrun.
  assert (∀ out' : list dict, (∀ q : dict, q ∈ rest → ¬ idless q →
                     ∃ k, py_hash (paper_id q) = Ok k ∧
                          (k ∈ si ∨ ∃ kept, kept ∈ out' ∧ py_hash (paper_id kept) = Ok k)) →
                  id_unseen (paper_id head) si = Ok false →
                  ∃ k, py_hash (paper_id paper) = Ok k ∧
                       (k ∈ si ∨ ∃ kept, kept ∈ out' ∧ py_hash (paper_id kept) = Ok k)) as Hfalse.
  { intros out' Hrest Hc. apply elem_of_cons in Hin as [->|Hin]; [|by apply Hrest].
    unfold id_unseen in Hc. unfold idless in Hid.
    destruct (truthy (paper_id head)); [|done].
    destruct (py_hash (paper_id head)) as [k|e]; simpl in Hc; [|done].
    exists k. split; [done|]. left.
    injection Hc as Hc. apply bool_decide_eq_false in Hc. by apply dec_stable. }
  destruct (id_unseen _ si) as [[|]|e] eqn:Hc; simpl in Hrun; [| |done].
  - destruct (py_hash (paper_id head)) as [k|e] eqn:Hk; simpl in Hrun; [|done].
    apply fmap_result_ok in Hrun as (out' & Hout' & ->).
    apply elem_of_cons in Hin as [->|Hin].
    + exists k. split; [done|]. right. exists head. split; [left|done].
    + destruct (IH _ _ _ Hout' paper Hin Hid) as (k' & Hk' & [Hs|(kept & Hkept & Hkk)]).
      * exists k'. split; [done|]. apply elem_of_union in Hs as [->%elem_of_singleton|Hs].
        -- right. exists head. split; [left|done].
        -- by left.
      * exists k'. split; [done|]. right. exists kept. split; [by right|done].
  - destruct (title_unseen _ st).
    + apply fmap_result_ok in Hrun as (out' & Hout' & ->).
      destruct (Hfalse out') as (k & Hk & [Hs|(kept & Hkept & Hkk)]); [|done|..].
      * intros q Hq Hqid. by apply (IH _ _ _ Hout').
      * exists k. split; [done|]. by left.
      * exists k. split; [done|]. right. exists kept. split; [by right|done].
    + apply (Hfalse out); [|done]. intros q Hq Hqid. by apply (IH _ _ _ Hrun).
Qed.

(** X4: [remove_duplicates] loses no id: for every input record with a
    truthy id, a record with the same id (the same [set] key) is among
    the kept ones. *)
Theorem remove_duplicates_keeps_every_id (papers out : list dict) (paper : dict) :
  remove_duplicates papers = Ok out →
  paper ∈ papers → ¬ idless paper →
  ∃ kept, kept ∈ out ∧ py_hash (paper_id kept) = py_hash (paper_id paper).
Proof.
  intros Hrun Hin Hid.
  destruct (dedup_loop_ids_kept _ _ _ _ Hrun paper Hin Hid)
    as (k & Hk & [Hs|(kept & Hkept & Hkk)]).
  - by apply elem_of_empty in Hs.
  - exists kept. split; [done|]. by rewrite Hk.
Qed.

Lemma remove_duplicates_keeps_every_id_witness :
  ∃ kept, kept ∈ ex_records ∧ py_hash (paper_id kept) = py_hash (paper_id ex_rec2).
Proof.
  apply (remove_duplicates_keeps_every_id ex_records ex_records ex_rec2).
  - vm_compute. reflexivity.
  - right. left.
  - vm_compute. discriminate.
Defined.

(** ** Paginated Fetcher *)

(** X5: when each of the pages 1 to 10 leads on to the next page,
    [search_works] requests exactly these ten pages and returns their
    papers: results beyond page 10 are dropped without any signal. *)
Theorem search_works_truncates_at_ten (fuel : nat) (server : api) (email q cat : string)
    (ys ye : Z) :
  (10 ≤ fuel)%nat →
  (∀ p, 1 ≤ p ≤ 10 →
     page_outcome q cat (title_params email q ys ye) p
       (server (page_request (title_params email q ys ye) p)) = Ok Next_page) →
  search_works fuel server email q cat ys ye
  = Some {| all_papers := pages_papers server q cat (title_params email q ys ye) 1 10;
            requests := page_requests (title_params email q ys ye) 1 10 |}.
Proof.
  intros Hfuel Hnext. unfold search_works.
  destruct (fetch_loop_trace server (title_params email q ys ye) q cat fuel 1 empty_state)
    as (n & Hn & Hrun & _ & Hlast); [lia|lia|].
  assert (n = 10) as ->.
  { destruct Hlast as [Hlast|Hlast]; [|lia]. exfalso. apply Hlast, Hnext. lia. }
  by rewrite Hrun.
Qed.

Lemma search_works_truncates_at_ten_witness :
  search_works 10 endless_server "me@example.org" "energy hub" "core" 2004 2025
  = Some {| all_papers :=
              pages_papers endless_server "energy hub" "core"
                (title_params "me@example.org" "energy hub" 2004 2025) 1 10;
            requests := page_requests (title_params "me@example.org" "energy hub" 2004 2025) 1 10 |}.
Proof.
  apply (search_works_truncates_at_ten 10); [lia|].
  intros p Hp.
  assert (p = 1 ∨ p = 2 ∨ p = 3 ∨ p = 4 ∨ p = 5 ∨ p = 6 ∨ p = 7 ∨ p = 8 ∨ p = 9 ∨ p = 10)
    as Hcases by lia.
  repeat (destruct Hcases as [->|Hcases]; [vm_compute; reflexivity|]).
  subst p. vm_compute. reflexivity.
Defined.

Lemma process_work_kept q cat work :
  process_work q cat work empty_state
  = match kept_paper q cat work with
    | Ok (Some paper) => ({| all_papers := [paper]; requests := [] |}, Ok tt)
    | Ok None => (empty_state, Ok tt)
    | Raise e => (empty_state, Raise e)
    end.
Proof.
  unfold process_work, kept_paper, mbind, fetch_bind, lift.
  destruct (normalize_work q cat work) as [paper|e]; simpl; [|done].
  by destruct (in_target_years _) as [[|]|e].
Qed.

Lemma for_each_kept q cat works kept :
  Forall2 (λ work k, kept_paper q cat work = Ok k) works kept →
  for_each (process_work q cat) works empty_state
  = ({| all_papers := omap id kept; requests := [] |}, Ok tt).
Proof.
  induction 1 as [|work k works kept Hk _ IH]; [done|].
  simpl. unfold mbind, fetch_bind. rewrite process_work_kept, Hk.
  destruct k as [paper|]; simpl.
  - rewrite for_each_extend, IH. done.
  - by rewrite IH.
Qed.

Lemma for_each_raise q cat good kept bad rest e :
  Forall2 (λ work k, kept_paper q cat work = Ok k) good kept →
  kept_paper q cat bad = Raise e →
  for_each (process_work q cat) (good ++ bad :: rest) empty_state
  = ({| all_papers := omap id kept; requests := [] |}, Raise e).
Proof.
  intros Hgood Hbad. induction Hgood as [|work k works kept Hk _ IH].
  - simpl. unfold mbind, fetch_bind. by rewrite process_work_kept, Hbad.
  - simpl. unfold mbind, fetch_bind. rewrite process_work_kept, Hk.
    destruct k as [paper|]; simpl.
    + rewrite for_each_extend, IH. done.
    + by rewrite IH.
Qed.

(** X6: when every work of a page can be read, the page contributes
    the Paper of each work whose year is in the window, in page order,
    and nothing else. *)
Theorem page_keeps_window_works (q cat : string) (params : request) (page : Z) (text : string)
    (data : dict) (works : list value) (kept : list (option dict)) :
  dict_get data "results" (VList []) = VList works →
  Forall2 (λ work k, kept_paper q cat work = Ok k) works kept →
  page_papers q cat params page (Response 200 text (Some (VDict data))) = omap id kept.
Proof.
  intros Hres Hgood.
  unfold page_papers, fetch_page, mbind, fetch_bind, http_get.
  set (run := for_each (process_work q cat)). simpl.
  rewrite Hres. destruct works as [|w ws].
  - apply Forall2_nil_inv_l in Hgood as ->. done.
  - simpl. unfold run. rewrite for_each_extend, (for_each_kept _ _ _ _ Hgood). simpl.
    destruct (dict_get data "meta" _); simpl; try done.
    unfold lift. destruct (page_reached _ _ _); done.
Qed.

Lemma page_keeps_window_works_witness :
  page_papers "energy hub" "core" (title_params "me@example.org" "energy hub" 2004 2025) 1
    (endless_server (title_params "me@example.org" "energy hub" 2004 2025))
  = omap id [Some (sample_normalized "W1" 2021 "energy hub" "core"); None].
Proof.
  apply (page_keeps_window_works "energy hub" "core" _ 1 ""
           [("results", VList [sample_work "W1" 2021; sample_work "W3" 2019]);
            ("meta", VDict [("count", VInt (10 ^ 12))])]
           [sample_work "W1" 2021; sample_work "W3" 2019]).
  - reflexivity.
  - constructor; [vm_compute; reflexivity|].
    constructor; [vm_compute; reflexivity|constructor].
Defined.

(** X7: when a work of a page cannot be read (its normalization or its
    year test raises), the page contributes the Papers of the works
    before it, the turn ends with that exception, and the works after
    it are never looked at. *)
Theorem page_stops_at_exception (q cat : string) (params : request) (page : Z) (text : string)
    (data : dict) (good : list value) (kept : list (option dict)) (bad : value)
    (rest : list value) (e : exn) :
  dict_get data "results" (VList []) = VList (good ++ bad :: rest) →
  Forall2 (λ work k, kept_paper q cat work = Ok k) good kept →
  kept_paper q cat bad = Raise e →
  page_papers q cat params page (Response 200 text (Some (VDict data))) = omap id kept ∧
  page_outcome q cat params page (Response 200 text (Some (VDict data))) = Raise e.
Proof.
  intros Hres Hgood Hbad.
  unfold page_papers, page_outcome, fetch_page, mbind, fetch_bind, http_get.
  set (run := for_each (process_work q cat)). simpl.
  rewrite Hres.
  assert (truthy (VList (good ++ bad :: rest)) = true) as -> by (by destruct good).
  simpl. unfold run. rewrite for_each_extend, (for_each_raise _ _ _ _ _ _ _ Hgood Hbad). done.
Qed.

Lemma page_stops_at_exception_witness :
  page_papers "energy hub" "core" (title_params "me@example.org" "energy hub" 2004 2025) 1
    (null_field_server (title_params "me@example.org" "energy hub" 2004 2025))
  = omap id [Some (sample_normalized "W1" 2021 "energy hub" "core")] ∧
  page_outcome "energy hub" "core" (title_params "me@example.org" "energy hub" 2004 2025) 1
    (null_field_server (title_params "me@example.org" "energy hub" 2004 2025))
  = Raise AttributeError.
Proof.
  apply (page_stops_at_exception "energy hub" "core" _ 1 ""
           [("results", VList [sample_work "W1" 2021; null_open_access_work;
                               sample_work "W3" 2022]);
            ("meta", VDict [("count", VInt 3)])]
           [sample_work "W1" 2021] _ null_open_access_work [sample_work "W3" 2022]).
  - reflexivity.
  - constructor; [vm_compute; reflexivity|constructor].
  - vm_compute. reflexivity.
Defined.

(** ** Record Normalizer *)

Lemma py_get_ok_iff (x : value) k default :
  (∃ v, py_get x k default = Ok v) ↔ is_dict x.
Proof. destruct x; simpl; split; try done; eauto; by intros [? ?]. Qed.

Lemma extract_venue_ok_iff (d : dict) :
  (∃ venue, extract_venue (VDict d) = Ok venue) ↔
  match dict_get d "primary_location" (VDict []) with
  | VDict loc => optional_dict (dict_get loc "source" (VDict []))
  | v => truthy v = false
  end.
Proof.
  unfold extract_venue, optional_dict. simpl.
  destruct (dict_get d "primary_location" _) as [|b|z|s|l|loc] eqn:Hpl; simpl.
  - split; eauto.
  - destruct b; simpl; split; eauto; try done. by intros [? ?].
  - destruct (negb (z =? 0)); simpl; split; eauto; try done. by intros [? ?].
  - destruct (negb (String.eqb s "")); simpl; split; eauto; try done. by intros [? ?].
  - destruct l; simpl; split; eauto; try done. by intros [? ?].
  - destruct loc as [|entry loc']; [simpl; split; eauto|].
    change (truthy (VDict (entry :: loc'))) with true. cbn [py_get mbind result_bind].
    generalize (dict_get (entry :: loc') "source" (VDict [])). intros source.
    destruct (truthy source) eqn:Ht; [|split; eauto].
    split.
    + intros [venue H]. right. apply (py_get_ok_iff source "display_name" (VStr "")). eauto.
    + intros [Hf|Hd]; [congruence|]. by apply py_get_ok_iff.
Qed.

Lemma extract_authors_ok_iff items : ∀ authors,
  (∃ out, extract_authors items authors = Ok out) ↔ Forall plain_authorship items.
Proof.
  induction items as [|item rest IH]; intros authors; simpl.
  - split; [constructor|eauto].
  - destruct item as [| | | | |d]; simpl;
      try (split; [by intros [? ?]|by intros [[] _]%Forall_cons]).
    set (author := dict_get d "author" (VDict [])).
    rewrite Forall_cons. unfold plain_authorship at 1, optional_dict. fold author.
    destruct (truthy author) eqn:Ht.
    + destruct author as [| | | | |ad]; simpl;
        try (split; [by intros [? ?]|by intros [[?|[]] _]]).
      rewrite IH. split; [intros ?; split; [by right|done]|by intros [_ ?]].
    + rewrite IH. split; [intros ?; split; [by left|done]|by intros [_ ?]].
Qed.

(** X8: [normalize_work] returns a Paper exactly for the works that are
    dicts whose [open_access] is a dict or absent, whose
    [primary_location] and its [source] are falsy or dicts, and whose
    first ten [authorships] are dicts with a falsy or dict [author]
    (or [authorships] is the empty string); for every other work it
    raises. *)
Theorem normalize_work_returns_iff (q cat : string) (work : value) :
  (∃ paper, normalize_work q cat work = Ok paper) ↔ plain_work work.
Proof.
  unfold normalize_work, plain_work.
  destruct work as [| | | | |d]; try (split; [by intros [? ?]|done]).
  cbn [py_get mbind result_bind].
  pose proof (extract_venue_ok_iff d) as Hvenue.
  destruct (dict_get d "open_access" (VDict [])) as [| | | | |oa];
    try (split; [by intros [? ?]|by intros [[] _]]).
  cbn [py_get mbind result_bind is_dict].
  destruct (extract_venue (VDict d)) as [venue|e].
  2: { split; [by intros [? ?]|]. intros (_ & Hv & _). apply Hvenue in Hv as [? ?]. done. }
  cbn [mbind result_bind].
  assert (match dict_get d "primary_location" (VDict []) with
          | VDict loc => optional_dict (dict_get loc "source" (VDict []))
          | v => truthy v = false
          end) as Hpl by (apply Hvenue; eauto).
  destruct (dict_get d "authorships" (VList [])) as [| | |s|items|];
    try (split; [by intros [? ?]|by intros (_ & _ & [])]).
  - cbn [py_slice mbind result_bind py_iter].
    destruct s as [|c s']; simpl.
    + split; [done|eauto].
    + split; [by intros [? ?]|by intros (_ & _ & ?)].
  - cbn [py_slice mbind result_bind py_iter].
    pose proof (extract_authors_ok_iff (take 10 items) []) as Hauth.
    destruct (extract_authors (take 10 items) []) as [authors|e]; cbn [mbind result_bind].
    + split; [|eauto]. intros _. repeat split; [done|]. apply Hauth. eauto.
    + split; [by intros [? ?]|]. intros (_ & _ & Ha). apply Hauth in Ha as [? ?]. done.
Qed.




(** X10: the venue of a normalized Paper is the [display_name] of the
    [source] of the [primary_location] when both are non-empty dicts
    (the empty string when the name is absent), and the empty string
    when the location or the source is falsy. *)
Theorem normalize_venue (q cat : string) (d paper : dict) :
  normalize_work q cat (VDict d) = Ok paper →
  (truthy (dict_get d "primary_location" (VDict [])) = false →
     dict_get paper "venue" VNone = VStr "") ∧
  (∀ loc, dict_get d "primary_location" (VDict []) = VDict loc →
     truthy (dict_get loc "source" (VDict [])) = false →
     dict_get paper "venue" VNone = VStr "") ∧
  (∀ loc src, dict_get d "primary_location" (VDict []) = VDict loc → loc ≠ [] →
     dict_get loc "source" (VDict []) = VDict src → src ≠ [] →
     dict_get paper "venue" VNone = dict_get src "display_name" (VStr "")).
Proof.
  intros Hn.
  assert (extract_venue (VDict d) = Ok (dict_get paper "venue" VNone)) as Hv.
  { revert Hn. unfold normalize_work.
    repeat (match goal with
            | |- context [mbind _ ?m] => destruct m eqn:?; simpl; [|done]
            end).
    by intros [= <-]. }
  revert Hv. unfold extract_venue. simpl. repeat split.
  - intros Hf. rewrite Hf in Hv. by injection Hv.
  - intros loc Hloc Hsrc. rewrite Hloc in Hv.
    destruct (truthy (VDict loc)); simpl in Hv; [|by injection Hv].
    rewrite Hsrc in Hv. by injection Hv.
  - intros loc src Hloc Hne Hsrc Hne'. rewrite Hloc in Hv.
    destruct loc; [done|]. simpl in Hv. simpl in Hsrc. rewrite Hsrc in Hv.
    destruct src; [done|]. simpl in Hv. by injection Hv.
Qed.

Lemma normalize_venue_witness :
  ∃ paper, normalize_work "energy hub" "core" (VDict venue_work) = Ok paper ∧
    (truthy (dict_get venue_work "primary_location" (VDict [])) = false →
       dict_get paper "venue" VNone = VStr "") ∧
    (∀ loc, dict_get venue_work "primary_location" (VDict []) = VDict loc →
       truthy (dict_get loc "source" (VDict [])) = false →
       dict_get paper "venue" VNone = VStr "") ∧
    (∀ loc src, dict_get venue_work "primary_location" (VDict []) = VDict loc → loc ≠ [] →
       dict_get loc "source" (VDict []) = VDict src → src ≠ [] →
       dict_get paper "venue" VNone = dict_get src "display_name" (VStr "")).
Proof.
  eexists. split; [vm_compute; reflexivity|].
  apply (normalize_venue "energy hub" "core" venue_work). vm_compute. reflexivity.
Defined.

Example venue_work_venue :
  (λ paper, dict_get paper "venue" VNone) <$> normalize_work "energy hub" "core" (VDict venue_work)
  = Ok (VStr "Applied Energy").
Proof. vm_compute. reflexivity. Qed.

(** ** Abstract strategy *)

Lemma abstract_papers_acc q cat works : ∀ papers,
  abstract_papers q cat works papers = (app papers) <$> abstract_papers q cat works [].
Proof.
  induction works as [|work rest IH]; intros papers; simpl.
  - unfold fmap, result_fmap. by rewrite app_nil_r.
  - destruct (abstract_paper q cat work) as [[paper|]|e]; simpl; [| |done].
    + rewrite (IH (papers ++ [paper])), (IH [paper]), fmap_result_compose.
      destruct (abstract_papers q cat rest []); simpl; [|done].
      unfold fmap, result_fmap. by rewrite <- app_assoc.
    + apply IH.
Qed.

Lemma abstract_papers_kept q cat works kept :
  Forall2 (λ work k, abstract_paper q cat work = Ok k) works kept →
  abstract_papers q cat works [] = Ok (omap id kept).
Proof.
  induction 1 as [|work k works kept Hk _ IH]; [done|].
  simpl. rewrite Hk. simpl. destruct k as [paper|]; simpl; [|done].
  by rewrite abstract_papers_acc, IH.
Qed.

Lemma abstract_papers_raise q cat works :
  Exists (λ work, ∃ e, abstract_paper q cat work = Raise e) works →
  ∀ papers, ∃ e, abstract_papers q cat works papers = Raise e.
Proof.
  induction 1 as [work rest [e He]|work rest _ IH]; intros papers; simpl.
  - rewrite He. simpl. eauto.
  - destruct (abstract_paper q cat work) as [[paper|]|e]; simpl; eauto.
Qed.

(** X11: the abstract strategy is all or nothing.  When every work of
    the page can be read, it returns the Paper of each work whose year
    is in the window, in page order; when any work of the page cannot
    be read (it is no dict, or comparing its year raises), it returns
    the empty list, also if works before it were read. *)
Theorem search_by_abstract_all_or_nothing (server : api) (email q cat : string) (ys ye : Z)
    (text : string) (data : dict) (works : list value) :
  server (abstract_params email q ys ye) = Response 200 text (Some (VDict data)) →
  dict_get data "results" (VList []) = VList works →
  (∀ kept, Forall2 (λ work k, abstract_paper q cat work = Ok k) works kept →
     search_by_abstract server email q cat ys ye = omap id kept) ∧
  (Exists (λ work, ∃ e, abstract_paper q cat work = Raise e) works →
     search_by_abstract server email q cat ys ye = []).
Proof.
  intros Hreply Hres. unfold search_by_abstract, abstract_try. rewrite Hreply. simpl.
  rewrite Hres. simpl. split.
  - intros kept Hkept. by rewrite (abstract_papers_kept _ _ _ _ Hkept).
  - intros Hbad. by destruct (abstract_papers_raise _ _ _ Hbad []) as [e ->].
Qed.

Lemma search_by_abstract_all_or_nothing_witness :
  search_by_abstract endless_server "me@example.org" "energy hub" "related" 2020 2025
  = omap id [Some [("id", VStr "W1"); ("title", VStr "Energy hub planning");
                   ("year", VInt 2021); ("citation_count", VInt 4);
                   ("search_term", VStr "energy hub"); ("category", VStr "related");
                   ("source", VStr "openalex_abstract")];
             None] ∧
  search_by_abstract
    (λ _, Response 200 "" (page_body [sample_work "W1" 2021; VStr "W3"] 2))
    "me@example.org" "energy hub" "related" 2020 2025 = [].
Proof.
  split.
  - apply (proj1 (search_by_abstract_all_or_nothing endless_server
             "me@example.org" "energy hub" "related" 2020 2025 ""
             [("results", VList [sample_work "W1" 2021; sample_work "W3" 2019]);
              ("meta", VDict [("count", VInt (10 ^ 12))])]
             [sample_work "W1" 2021; sample_work "W3" 2019] eq_refl eq_refl)).
    constructor; [vm_compute; reflexivity|].
    constructor; [vm_compute; reflexivity|constructor].
  - apply (proj2 (search_by_abstract_all_or_nothing
             (λ _, Response 200 "" (page_body [sample_work "W1" 2021; VStr "W3"] 2))
             "me@example.org" "energy hub" "related" 2020 2025 ""
             [("results", VList [sample_work "W1" 2021; VStr "W3"]);
              ("meta", VDict [("count", VInt 2)])]
             [sample_work "W1" 2021; VStr "W3"] eq_refl eq_refl)).
    apply Exists_cons_tl, Exists_cons_hd. by exists AttributeError.
Defined.

(** A string among the works empties the result of the abstract
    strategy, where the title strategy keeps the work before it. *)
Example abstract_loses_page :
  search_by_abstract
    (λ _, Response 200 "" (page_body [sample_work "W1" 2021; VStr "W3"] 2))
    "me@example.org" "energy hub" "related" 2020 2025 = [] ∧
  (λ st, length (all_papers st))
    <$> search_works 10
          (λ _, Response 200 "" (page_body [sample_work "W1" 2021; VStr "W3"] 2))
          "me@example.org" "energy hub" "core" 2004 2025 = Some 1%nat.
Proof. split; vm_compute; reflexivity. Qed.

(** ** Aggregator: the rows of the summary *)

Lemma summary_year_window v y : summary_year v = Some y → 2020 ≤ y ≤ 2025.
Proof.
  unfold summary_year. destruct (truthy v); [|done].
  destruct (as_int v) as [z|]; [|done].
  destruct ((2020 <=? z) && (z <=? 2025)) eqn:Hr; [|done].
  intros [= <-]. apply andb_prop in Hr as [H1 H2]. lia.
Qed.

Lemma organize_dom (papers : list dict) (y : Z) :
  y ∈ dom (organize papers) ↔
  ∃ paper, paper ∈ papers ∧ summary_year (dict_get paper "year" VNone) = Some y.
Proof.
  induction papers as [|paper papers IH] using rev_ind.
  - unfold organize. simpl. rewrite dom_empty_L. split; [set_solver|].
    intros (? & []%elem_of_nil & _).
  - rewrite organize_snoc. unfold organize_step at 1.
    destruct (summary_year (dict_get paper "year" VNone)) as [y'|] eqn:Hy.
    + rewrite dom_insert_L, elem_of_union, elem_of_singleton, IH. split.
      * intros [-> |(q & Hq & Hqy)].
        -- exists paper. split; [apply elem_of_app; right; left|done].
        -- exists q. split; [apply elem_of_app; by left|done].
      * intros (q & [Hq| ->%list_elem_of_singleton]%elem_of_app & Hqy).
        -- right. eauto.
        -- left. congruence.
    + rewrite IH. split.
      * intros (q & Hq & Hqy). exists q. split; [apply elem_of_app; by left|done].
      * intros (q & [Hq| ->%list_elem_of_singleton]%elem_of_app & Hqy); [eauto|congruence].
Qed.

Lemma sorted_years_elem {V : Type} (m : gmap Z V) (y : Z) : y ∈ sorted_years m ↔ y ∈ dom m.
Proof. unfold sorted_years. by rewrite merge_sort_Permutation, elem_of_elements. Qed.

Lemma sorted_years_NoDup {V : Type} (m : gmap Z V) : NoDup (sorted_years m).
Proof. unfold sorted_years. rewrite merge_sort_Permutation. apply NoDup_elements. Qed.

Lemma StronglySorted_le_lt (l : list Z) :
  StronglySorted Z.le l → NoDup l → StronglySorted Z.lt l.
Proof.
  induction 1 as [|x l _ IH Hall]; intros Hnd; [constructor|].
  apply NoDup_cons in Hnd as [Hx Hnd]. constructor; [by apply IH|].
  rewrite Forall_forall in Hall. apply Forall_forall. intros z Hz.
  specialize (Hall z Hz). assert (x ≠ z) by (by intros ->). lia.
Qed.

Lemma sorted_years_sorted {V : Type} (m : gmap Z V) : StronglySorted Z.lt (sorted_years m).
Proof.
  apply StronglySorted_le_lt; [|apply sorted_years_NoDup].
  unfold sorted_years. apply StronglySorted_merge_sort; [apply _|].
  intros x z. destruct (Z.le_ge_cases x z); [by left|right; lia].
Qed.

Lemma summary_loop_years annual_data years : ∀ stats core combined stats' core' combined',
  summary_loop annual_data years stats core combined = Ok (stats', core', combined') →
  year <$> stats' = (year <$> stats) ++ years.
Proof.
  induction years as [|y rest IH]; intros stats core combined stats' core' combined'; simpl.
  - intros [= <- _ _]. by rewrite app_nil_r.
  - unfold year_tables.
    destruct (summary_row_of y _) as [row|e] eqn:Hrow; simpl; [|done].
    destruct (mapM _ (yd_core _)) as [cd|e]; simpl; [|done].
    destruct (mapM _ (List.filter _ _)) as [ad|e]; simpl; [|done].
    intros H%IH. rewrite H, fmap_app. simpl.
    rewrite (summary_row_of_year _ _ _ Hrow). by rewrite <- app_assoc.
Qed.

Lemma summary_years (papers : list dict) (reports : annual_reports) :
  save_annual_summary_csvs papers = Ok (Some reports) →
  year <$> summary reports = sorted_years (organize papers).
Proof.
  unfold save_annual_summary_csvs. destruct papers as [|paper rest]; [done|].
  destruct (summary_loop _ _ [] [] []) as [[[stats core] combined]|e] eqn:Hloop; simpl; [|done].
  destruct (growth_rates _) as [rates|e]; simpl; [|done].
  intros [= <-]. simpl. by apply summary_loop_years in Hloop.
Qed.

(** X12: the summary table has one row per year that some paper falls
    into, in strictly ascending order of the year, and every such year
    is between 2020 and 2025. *)
Theorem summary_rows_by_year (papers : list dict) (reports : annual_reports) :
  save_annual_summary_csvs papers = Ok (Some reports) →
  StronglySorted Z.lt (year <$> summary reports) ∧
  (∀ y, y ∈ (year <$> summary reports) ↔
        ∃ paper, paper ∈ papers ∧ summary_year (dict_get paper "year" VNone) = Some y) ∧
  Forall (λ y, 2020 ≤ y ≤ 2025) (year <$> summary reports).
Proof.
  intros Hrep. rewrite (summary_years _ _ Hrep).
  assert (∀ y, y ∈ sorted_years (organize papers) ↔
               ∃ paper, paper ∈ papers ∧ summary_year (dict_get paper "year" VNone) = Some y)
    as Hiff.
  { intros y. by rewrite sorted_years_elem, organize_dom. }
  split; [apply sorted_years_sorted|]. split; [done|].
  apply Forall_forall. intros y (paper & _ & Hy)%Hiff. by eapply summary_year_window.
Qed.

Lemma summary_rows_by_year_witness :
  ∃ reports, save_annual_summary_csvs sample_papers = Ok (Some reports) ∧
    StronglySorted Z.lt (year <$> summary reports) ∧
    (∀ y, y ∈ (year <$> summary reports) ↔
          ∃ paper, paper ∈ sample_papers ∧
                   summary_year (dict_get paper "year" VNone) = Some y) ∧
    Forall (λ y, 2020 ≤ y ≤ 2025) (year <$> summary reports).
Proof.
  eexists. split; [vm_compute; reflexivity|].
  apply (summary_rows_by_year sample_papers). vm_compute. reflexivity.
Defined.

Lemma py_sum_spec (items : list value) : ∀ acc s,
  py_sum acc items = Ok s ↔
  Forall (λ v, is_Some (as_int v)) items ∧ s = acc + sum_Z (omap as_int items).
Proof.
  induction items as [|v rest IH]; intros acc s; simpl.
  - unfold sum_Z. cbn. split.
    + intros [= <-]. split; [constructor|]. lia.
    + intros [_ ->]. f_equal. lia.
  - destruct (as_int v) as [z|] eqn:Hv.
    + rewrite IH, Forall_cons. unfold sum_Z. simpl. rewrite Hv. simpl. split.
      * intros [Hall ->]. split; [split; [by eexists|done]|].
        symmetry. apply Z.add_assoc.
      * intros [[_ Hall] ->]. split; [done|]. apply Z.add_assoc.
    + split; [done|]. intros [[[z Hz] _]%Forall_cons _]. congruence.
Qed.

Lemma citation_sum_spec (papers : list dict) (s : Z) :
  citation_sum papers = Ok s ↔
  Forall (λ paper, is_Some (citations_of paper)) papers ∧
  s = sum_Z (omap citations_of papers).
Proof.
  unfold citation_sum. rewrite py_sum_spec, Forall_fmap.
  assert (omap as_int ((λ p, dict_get p "citation_count" (VInt 0)) <$> papers)
          = omap citations_of papers) as ->.
  { apply list_omap_ext, Forall2_fmap_l, Forall_Forall2_diag, Forall_true. done. }
  done.
Qed.

Lemma summary_row_of_citations y yd row :
  summary_row_of y yd = Ok row →
  core_citations row = sum_Z (omap citations_of (yd_core yd)) ∧
  related_citations row = sum_Z (omap citations_of (yd_related yd)).
Proof.
  unfold summary_row_of.
  destruct (citation_sum (yd_core yd)) as [c|e] eqn:Hc; simpl; [|done].
  destruct (citation_sum (yd_related yd)) as [r|e] eqn:Hr; simpl; [|done].
  intros [= <-]. simpl.
  apply citation_sum_spec in Hc as [_ ->]. by apply citation_sum_spec in Hr as [_ ->].
Qed.

Lemma summary_rows_of_organize (papers : list dict) (reports : annual_reports) :
  save_annual_summary_csvs papers = Ok (Some reports) →
  Forall (λ row, summary_row_of (year row)
                   (default empty_year_data (organize papers !! year row)) = Ok row)
         (summary reports).
Proof.
  unfold save_annual_summary_csvs. destruct papers as [|paper rest]; [done|].
  destruct (summary_loop _ _ [] [] []) as [[[stats core] combined]|e] eqn:Hloop; simpl; [|done].
  destruct (growth_rates _) as [rates|e]; simpl; [|done].
  intros [= <-]. simpl. eapply summary_loop_rows; [|exact Hloop]. constructor.
Qed.

Lemma summary_rows_buckets (papers : list dict) (reports : annual_reports) :
  save_annual_summary_csvs papers = Ok (Some reports) →
  Forall (λ row,
    core_papers row = Z.of_nat (length (bucket papers (year row) "core")) ∧
    related_papers row = Z.of_nat (length (bucket papers (year row) "related")) ∧
    core_citations row = sum_Z (omap citations_of (bucket papers (year row) "core")) ∧
    related_citations row = sum_Z (omap citations_of (bucket papers (year row) "related")) ∧
    core_open_access row = open_access_count (bucket papers (year row) "core") ∧
    related_open_access row = open_access_count (bucket papers (year row) "related"))
    (summary reports).
Proof.
  intros Hrep. eapply Forall_impl; [by apply summary_rows_of_organize|].
  intros row Hrow. simpl in Hrow. unfold bucket.
  destruct (organize_lookup papers (year row)) as (Hc & Hr & _).
  pose proof (summary_row_of_counts _ _ _ Hrow) as (H1 & H2 & H3 & H4).
  pose proof (summary_row_of_citations _ _ _ Hrow) as (H5 & H6).
  rewrite Hc, Hr in *. done.
Qed.

(** X13: every row of the summary table counts the papers of its year:
    the core and related columns hold the number, the citation sum and
    the number of open-access papers of the input papers filed under
    that year and category. *)
Theorem summary_row_contents (papers : list dict) (reports : annual_reports) :
  save_annual_summary_csvs papers = Ok (Some reports) →
  Forall (λ row,
    core_papers row = Z.of_nat (length (bucket papers (year row) "core")) ∧
    related_papers row = Z.of_nat (length (bucket papers (year row) "related")) ∧
    core_citations row = sum_Z (omap citations_of (bucket papers (year row) "core")) ∧
    related_citations row = sum_Z (omap citations_of (bucket papers (year row) "related")) ∧
    core_open_access row = open_access_count (bucket papers (year row) "core") ∧
    related_open_access row = open_access_count (bucket papers (year row) "related"))
    (summary reports).
Proof. apply summary_rows_buckets. Qed.

Lemma summary_row_contents_witness :
  ∃ reports, save_annual_summary_csvs sample_papers = Ok (Some reports) ∧
  Forall (λ row,
    core_papers row = Z.of_nat (length (bucket sample_papers (year row) "core")) ∧
    related_papers row = Z.of_nat (length (bucket sample_papers (year row) "related")) ∧
    core_citations row = sum_Z (omap citations_of (bucket sample_papers (year row) "core")) ∧
    related_citations row
      = sum_Z (omap citations_of (bucket sample_papers (year row) "related")) ∧
    core_open_access row = open_access_count (bucket sample_papers (year row) "core") ∧
    related_open_access row = open_access_count (bucket sample_papers (year row) "related"))
    (summary reports).
Proof.
  eexists. split; [vm_compute; reflexivity|].
  apply (summary_row_contents sample_papers). vm_compute. reflexivity.
Defined.

Lemma py_eq_str_inv v s : py_eq_str v s = true → v = VStr s.
Proof. destruct v; simpl; try done. by intros ->%String.eqb_eq. Qed.

Lemma category_default_irrelevant (paper : dict) (s : string) :
  s = "core" ∨ s = "related" →
  py_eq_str (dict_get paper "category" VNone) s
  = py_eq_str (dict_get paper "category" (VStr "unknown")) s.
Proof.
  intros Hs. induction paper as [|[k v] rest IH]; simpl.
  - by destruct Hs as [-> | ->].
  - by destruct (String.eqb k "category").
Qed.

(** What one paper adds to the row of year [y]. *)
Lemma in_bucket_exclusive y paper :
  in_bucket y "core" paper && in_bucket y "related" paper = false.
Proof.
  unfold in_bucket. destruct (bool_decide _); [|done]. simpl.
  destruct (py_eq_str _ "core") eqn:Hc; [|done].
  by apply py_eq_str_inv in Hc as ->.
Qed.

Lemma counted_in_bucket y paper :
  summary_year (dict_get paper "year" VNone) = Some y →
  counted paper = in_bucket y "core" paper || in_bucket y "related" paper.
Proof.
  intros Hy. unfold counted, in_bucket. rewrite Hy.
  rewrite !bool_decide_eq_true_2 by eauto. done.
Qed.

Lemma in_bucket_other_year y cat paper :
  summary_year (dict_get paper "year" VNone) ≠ Some y → in_bucket y cat paper = false.
Proof. intros Hy. unfold in_bucket. by rewrite bool_decide_eq_false_2. Qed.

Lemma counted_no_year paper :
  summary_year (dict_get paper "year" VNone) = None → counted paper = false.
Proof.
  intros Hy. unfold counted. rewrite Hy. rewrite bool_decide_eq_false_2; [done|].
  by intros [? ?].
Qed.

Lemma row_size_cons paper papers y :
  row_size (paper :: papers) y
  = (if in_bucket y "core" paper || in_bucket y "related" paper then 1 else 0)
    + row_size papers y.
Proof.
  unfold row_size, bucket. simpl.
  pose proof (in_bucket_exclusive y paper).
  destruct (in_bucket y "core" paper), (in_bucket y "related" paper); simpl in *; lia.
Qed.

Lemma sum_row_size_cons paper papers (years : list Z) :
  NoDup years →
  (∀ y, summary_year (dict_get paper "year" VNone) = Some y → y ∈ years) →
  sum_Z (row_size (paper :: papers) <$> years)
  = (if counted paper then 1 else 0) + sum_Z (row_size papers <$> years).
Proof.
  intros Hnd Hin.
  destruct (summary_year (dict_get paper "year" VNone)) as [y0|] eqn:Hy.
  - specialize (Hin y0 eq_refl). rewrite (counted_in_bucket y0 paper Hy).
    induction years as [|y years IH]; [by apply elem_of_nil in Hin|].
    apply NoDup_cons in Hnd as [Hy_notin Hnd]. unfold sum_Z in *. rewrite !fmap_cons; cbn [foldr].
    rewrite row_size_cons. destruct (decide (y = y0)) as [-> | Hne].
    + assert (foldr Z.add 0 (row_size (paper :: papers) <$> years)
              = foldr Z.add 0 (row_size papers <$> years)) as ->; [|lia].
      clear IH Hin. induction years as [|y years IH]; [done|]. rewrite !fmap_cons; cbn [foldr].
      apply not_elem_of_cons in Hy_notin as [Hne Hy_notin].
      apply NoDup_cons in Hnd as [_ Hnd].
      rewrite row_size_cons, !in_bucket_other_year by congruence.
      rewrite (IH Hy_notin Hnd). simpl. lia.
    + apply elem_of_cons in Hin as [Heq|Hin]; [congruence|].
      rewrite !in_bucket_other_year by congruence. simpl.
      rewrite (IH Hnd Hin). lia.
  - rewrite (counted_no_year paper Hy). clear Hnd Hin.
    induction years as [|y years IH]; [done|]. unfold sum_Z in *. rewrite !fmap_cons; cbn [foldr].
    rewrite row_size_cons, !in_bucket_other_year by congruence. simpl.
    rewrite IH. lia.
Qed.

Lemma sum_row_size (papers : list dict) (years : list Z) :
  NoDup years →
  (∀ paper y, paper ∈ papers →
     summary_year (dict_get paper "year" VNone) = Some y → y ∈ years) →
  sum_Z (row_size papers <$> years) = Z.of_nat (length (List.filter counted papers)).
Proof.
  intros Hnd. induction papers as [|paper papers IH]; intros Hin.
  - simpl. clear. induction years as [|y years IH]; [done|].
    unfold sum_Z in *. rewrite !fmap_cons; cbn [foldr]. rewrite IH. unfold row_size, bucket. simpl. lia.
  - rewrite sum_row_size_cons; [|done|intros y; apply Hin; left].
    rewrite IH by (intros q y Hq; apply Hin; by right).
    simpl. destruct (counted paper); simpl; lia.
Qed.

Lemma fmap_via_year {B : Type} (g : summary_row → B) (h : Z → B) (rows : list summary_row) :
  Forall (λ row, g row = h (year row)) rows → g <$> rows = h <$> (year <$> rows).
Proof.
  induction 1 as [|row rows Hrow _ IH]; [done|]. cbn [fmap list_fmap]. by rewrite Hrow, IH.
Qed.

Lemma summary_totals_counted (papers : list dict) (reports : annual_reports) :
  save_annual_summary_csvs papers = Ok (Some reports) →
  sum_Z (total_papers <$> summary reports) = Z.of_nat (length (List.filter counted papers)).
Proof.
  intros Hrep.
  assert (total_papers <$> summary reports
          = row_size papers <$> (year <$> summary reports)) as ->.
  { apply fmap_via_year.
    pose proof (summary_rows_totals _ _ Hrep) as Htot.
    pose proof (summary_rows_buckets _ _ Hrep) as Hcnt.
    rewrite Forall_forall in Htot, Hcnt. apply Forall_forall. intros row Hrow.
    destruct (Htot row Hrow) as (-> & _). destruct (Hcnt row Hrow) as (-> & -> & _). done. }
  rewrite (summary_years _ _ Hrep). apply sum_row_size; [apply sorted_years_NoDup|].
  intros paper y Hp Hy. apply sorted_years_elem, organize_dom. eauto.
Qed.

(** X14: no paper is lost or counted twice: the totals of the rows of
    the summary table add up to the number of input papers whose year
    is in the window and whose category is core or related. *)
Theorem summary_totals_add_up (papers : list dict) (reports : annual_reports) :
  save_annual_summary_csvs papers = Ok (Some reports) →
  sum_Z (total_papers <$> summary reports) = Z.of_nat (length (List.filter counted papers)).
Proof. apply summary_totals_counted. Qed.

Lemma summary_totals_add_up_witness :
  ∃ reports, save_annual_summary_csvs sample_papers = Ok (Some reports) ∧
    sum_Z (total_papers <$> summary reports)
    = Z.of_nat (length (List.filter counted sample_papers)).
Proof.
  eexists. split; [vm_compute; reflexivity|].
  apply (summary_totals_add_up sample_papers). vm_compute. reflexivity.
Defined.

Lemma summary_rows_sizes (papers : list dict) (reports : annual_reports) :
  save_annual_summary_csvs papers = Ok (Some reports) →
  Forall (λ row,
    (year row, core_papers row, related_papers row, total_papers row)
    = (year row, Z.of_nat (length (bucket papers (year row) "core")),
       Z.of_nat (length (bucket papers (year row) "related")),
       row_size papers (year row))) (summary reports).
Proof.
  intros Hrep.
  pose proof (summary_rows_totals _ _ Hrep) as Htot.
  pose proof (summary_rows_buckets _ _ Hrep) as Hcnt.
  rewrite Forall_forall in Htot, Hcnt. apply Forall_forall. intros row Hrow.
  destruct (Htot row Hrow) as (-> & _). destruct (Hcnt row Hrow) as (-> & -> & _). done.
Qed.

(** X15: the year/count matrix agrees with the summary table: row by
    row it holds the year and the core, related and total paper counts
    of the summary. *)
Theorem year_matrix_agrees (papers : list dict) (reports : annual_reports) :
  save_annual_summary_csvs papers = Ok (Some reports) →
  year_matrix reports
  = (λ row, (year row, core_papers row, related_papers row, total_papers row))
      <$> summary reports.
Proof.
  intros Hrep.
  rewrite (fmap_via_year _ (λ y, (y, Z.of_nat (length (bucket papers y "core")),
                                  Z.of_nat (length (bucket papers y "related")),
                                  row_size papers y)) _ (summary_rows_sizes _ _ Hrep)).
  rewrite (summary_years _ _ Hrep).
  revert Hrep. unfold save_annual_summary_csvs. destruct papers as [|paper rest]; [done|].
  set (papers := paper :: rest).
  destruct (summary_loop _ _ [] [] []) as [[[stats core] combined]|e]; simpl; [|done].
  destruct (growth_rates _) as [rates|e]; simpl; [|done].
  intros [= <-]. simpl. apply list_fmap_ext. intros _ y _.
  destruct (organize_lookup papers y) as (Hc & Hr & _). simpl in Hc, Hr.
  unfold row_size, bucket. by rewrite Hc, Hr.
Qed.

Lemma year_matrix_agrees_witness :
  ∃ reports, save_annual_summary_csvs sample_papers = Ok (Some reports) ∧
    year_matrix reports
    = (λ row, (year row, core_papers row, related_papers row, total_papers row))
        <$> summary reports.
Proof.
  eexists. split; [vm_compute; reflexivity|].
  apply (year_matrix_agrees sample_papers). vm_compute. reflexivity.
Defined.

Lemma mapM_result_ok {A B : Type} (f : A → result B) (l : list A) (out : list B) :
  mapM f l = Ok out ↔ Forall2 (λ x y, f x = Ok y) l out.
Proof.
  revert out. induction l as [|x l IH]; intros out; simpl.
  - split; [intros [= <-]; constructor|by intros ->%Forall2_nil_inv_l].
  - destruct (f x) as [y|e] eqn:Hx; simpl.
    + destruct (mapM f l) as [k|e] eqn:Hl; simpl; unfold mret, result_ret.
      * split.
        -- intros [= <-]. constructor; [done|]. by apply IH.
        -- intros (y' & k' & Hy & Hk & ->)%Forall2_cons_inv_l.
           apply IH in Hk. congruence.
      * split; [done|]. intros (y' & k' & Hy & Hk & ->)%Forall2_cons_inv_l.
        by apply IH in Hk.
    + split; [done|]. intros (y' & k' & Hy & Hk & ->)%Forall2_cons_inv_l. congruence.
Qed.


Lemma mapM_result_length {A B : Type} (f : A → result B) (l : list A) (out : list B) :
  mapM f l = Ok out → length out = length l.
Proof. intros H%mapM_result_ok. symmetry. by eapply Forall2_length. Qed.






Lemma in_core_or_related_counted y paper :
  in_year y paper = true →
  in_core_or_related paper = in_bucket y "core" paper || in_bucket y "related" paper.
Proof.
  unfold in_year, in_core_or_related, in_bucket. intros ->. simpl.
  by rewrite !category_default_irrelevant by eauto.
Qed.

Lemma in_bucket_in_year y category paper :
  in_bucket y category paper = true → in_year y paper = true.
Proof. unfold in_bucket, in_year. by intros [? _]%andb_prop. Qed.




(** A paper with a null citation count makes the Aggregator raise. *)
Example save_annual_summary_null_citations :
  save_annual_summary_csvs
    [[("title", VStr "T"); ("year", VInt 2021); ("citation_count", VNone);
      ("category", VStr "core")]] = Raise TypeError.
Proof. vm_compute. reflexivity. Qed.

Lemma combined_filter_size (papers : list dict) (y : Z) :
  Z.of_nat (length (List.filter in_core_or_related (List.filter (in_year y) papers)))
  = row_size papers y.
Proof.
  induction papers as [|paper papers IH]; [done|].
  rewrite row_size_cons, <- IH. simpl.
  destruct (in_year y paper) eqn:Hy; simpl.
  - rewrite (in_core_or_related_counted y paper Hy).
    destruct (_ || _); simpl; lia.
  - rewrite !in_bucket_other_year; [simpl; lia|..];
      intros Hs; unfold in_year in Hy; by rewrite bool_decide_eq_true_2 in Hy.
Qed.

Lemma summary_loop_detail_sizes (papers : list dict) years :
  ∀ stats core combined stats' core' combined',
  summary_loop (organize papers) years stats core combined = Ok (stats', core', combined') →
  Z.of_nat (length core')
  = Z.of_nat (length core) + sum_Z ((λ y, Z.of_nat (length (bucket papers y "core"))) <$> years) ∧
  Z.of_nat (length combined')
  = Z.of_nat (length combined) + sum_Z (row_size papers <$> years).
Proof.
  induction years as [|y rest IH]; intros stats core combined stats' core' combined'.
  - simpl. intros [= _ <- <-]. unfold sum_Z. simpl. lia.
  - cbn [summary_loop]. unfold year_tables.
    destruct (organize_lookup papers y) as (Hc & _ & Ha). simpl in Hc, Ha.
    destruct (summary_row_of y _) as [row|e]; simpl; [|done].
    destruct (mapM _ (yd_core _)) as [cd|e] eqn:Hcd; simpl; [|done].
    destruct (mapM _ (List.filter _ _)) as [ad|e] eqn:Had; simpl; [|done].
    intros (H1 & H2)%IH.
    apply mapM_result_length in Hcd, Had. rewrite Hc in Hcd. rewrite Ha in Had.
    rewrite !length_app in *. rewrite <- (combined_filter_size papers y).
    unfold sum_Z, fmap, bucket in *. cbn [list_fmap foldr] in *. lia.
Qed.

(** X17: the detail tables have one row per counted paper: the
    core-papers table has as many rows as the core column of the
    summary adds up to, and the combined table as many as the total
    column adds up to. *)
Theorem detail_tables_sizes (papers : list dict) (reports : annual_reports) :
  save_annual_summary_csvs papers = Ok (Some reports) →
  Z.of_nat (length (core_papers_table reports)) = sum_Z (core_papers <$> summary reports) ∧
  Z.of_nat (length (combined_papers_table reports)) = sum_Z (total_papers <$> summary reports).
Proof.
  intros Hrep.
  assert (core_papers <$> summary reports
          = (λ y, Z.of_nat (length (bucket papers y "core"))) <$> (year <$> summary reports))
    as ->.
  { apply fmap_via_year. eapply Forall_impl; [by apply summary_rows_buckets|].
    by intros row (-> & _). }
  assert (total_papers <$> summary reports
          = row_size papers <$> (year <$> summary reports)) as ->.
  { apply fmap_via_year. eapply Forall_impl; [by apply summary_rows_sizes|].
    by intros row [= _ _ ->]. }
  rewrite (summary_years _ _ Hrep).
  revert Hrep. unfold save_annual_summary_csvs. destruct papers as [|paper rest]; [done|].
  set (papers := paper :: rest).
  destruct (summary_loop _ _ [] [] []) as [[[stats core] combined]|e] eqn:Hloop; simpl; [|done].
  destruct (growth_rates _) as [rates|e]; simpl; [|done].
  intros [= <-]. simpl.
  apply summary_loop_detail_sizes in Hloop as [H1 H2]. simpl in H1, H2. lia.
Qed.

Lemma detail_tables_sizes_witness :
  ∃ reports, save_annual_summary_csvs sample_papers = Ok (Some reports) ∧
    Z.of_nat (length (core_papers_table reports)) = sum_Z (core_papers <$> summary reports) ∧
    Z.of_nat (length (combined_papers_table reports))
    = sum_Z (total_papers <$> summary reports).
Proof.
  eexists. split; [vm_compute; reflexivity|].
  apply (detail_tables_sizes sample_papers). vm_compute. reflexivity.
Defined.

(** ** Trend chart *)

Lemma chart_step_lookup (annual_data : gmap Z (Z * Z)) (paper : dict) (y : Z) :
  default (0, 0) (chart_step annual_data paper !! y)
  = ((default (0, 0) (annual_data !! y)).1 + (if in_bucket y "core" paper then 1 else 0),
     (default (0, 0) (annual_data !! y)).2 + (if in_bucket y "related" paper then 1 else 0)).
Proof.
  assert (∀ p : Z * Z, p = (p.1 + 0, p.2 + 0)) as Hid.
  { intros [c r]. simpl. f_equal; lia. }
  unfold chart_step, in_bucket.
  destruct (summary_year (dict_get paper "year" VNone)) as [y'|] eqn:Hy.
  2: { rewrite !bool_decide_eq_false_2 by done. apply Hid. }
  set (category := dict_get paper "category" (VStr "unknown")).
  pose proof (py_eq_str_inv category "core") as Hcore.
  destruct (default (0, 0) (annual_data !! y')) as [c r] eqn:Hd.
  destruct (decide (y' = y)) as [-> | Hne].
  - rewrite !bool_decide_eq_true_2 by done. rewrite Hd. cbn [andb fst snd].
    destruct (py_eq_str category "core") eqn:Hc.
    + rewrite (Hcore eq_refl). rewrite lookup_insert_eq. simpl. f_equal. lia.
    + destruct (py_eq_str category "related").
      * rewrite lookup_insert_eq. simpl. f_equal. lia.
      * rewrite Hd. simpl. f_equal; lia.
  - rewrite !bool_decide_eq_false_2 by congruence. cbn [andb].
    destruct (py_eq_str category "core"); [|destruct (py_eq_str category "related")];
      rewrite ?lookup_insert_ne by done; apply Hid.
Qed.

Lemma chart_step_dom (annual_data : gmap Z (Z * Z)) (paper : dict) (y : Z) :
  y ∈ dom (chart_step annual_data paper) ↔
  y ∈ dom annual_data ∨ in_bucket y "core" paper || in_bucket y "related" paper = true.
Proof.
  unfold chart_step, in_bucket.
  destruct (summary_year (dict_get paper "year" VNone)) as [y'|] eqn:Hy.
  2: { rewrite !bool_decide_eq_false_2 by done. simpl. split; [by left|by intros [?|?]]. }
  set (category := dict_get paper "category" (VStr "unknown")).
  destruct (default (0, 0) (annual_data !! y')) as [c r].
  destruct (decide (y' = y)) as [-> | Hne].
  - rewrite !bool_decide_eq_true_2 by done. cbn [andb].
    destruct (py_eq_str category "core"); [|destruct (py_eq_str category "related")];
      rewrite ?dom_insert_L, ?elem_of_union, ?elem_of_singleton; cbn [orb].
    + split; [by right|by left].
    + split; [by right|by left].
    + split; [by left|by intros [?|?]].
  - rewrite !bool_decide_eq_false_2 by congruence. cbn [andb orb].
    destruct (py_eq_str category "core"); [|destruct (py_eq_str category "related")];
      rewrite ?dom_insert_L, ?elem_of_union, ?elem_of_singleton.
    + split; [intros [?|?]; [congruence|by left]|intros [?|?]; [by right|done]].
    + split; [intros [?|?]; [congruence|by left]|intros [?|?]; [by right|done]].
    + split; [by left|by intros [?|?]].
Qed.

Lemma chart_lookup (papers : list dict) (y : Z) :
  default (0, 0) (foldl chart_step ∅ papers !! y)
  = (Z.of_nat (length (bucket papers y "core")), Z.of_nat (length (bucket papers y "related"))) ∧
  (y ∈ dom (foldl chart_step ∅ papers) ↔ 0 < row_size papers y).
Proof.
  unfold row_size, bucket.
  induction papers as [|paper papers [IHv IHd]] using rev_ind.
  - simpl. rewrite dom_empty_L. split; [done|]. split; [set_solver|lia].
  - rewrite foldl_app, !List.filter_app, !length_app. cbn [foldl List.filter].
    rewrite chart_step_lookup, chart_step_dom, IHv, IHd. cbn [fst snd].
    pose proof (in_bucket_exclusive y paper).
    destruct (in_bucket y "core" paper), (in_bucket y "related" paper);
      cbn [length orb] in *; try done.
    + split; [f_equal; lia|]. split; [lia|by right].
    + split; [f_equal; lia|]. split; [lia|by right].
    + split; [f_equal; lia|]. split; [intros [?|?]; [lia|done]|intros; left; lia].
Qed.

Lemma chart_years_elem (papers : list dict) (y : Z) :
  y ∈ sorted_years (foldl chart_step ∅ papers) ↔ 0 < row_size papers y.
Proof. rewrite sorted_years_elem. apply chart_lookup. Qed.

Lemma trend_chart_data_spec (papers : list dict) (years cores relateds totals : list Z) :
  trend_chart_data papers = Some (years, cores, relateds, totals) →
  StronglySorted Z.lt years ∧
  (∀ y, y ∈ years ↔ 0 < row_size papers y) ∧
  cores = (λ y, Z.of_nat (length (bucket papers y "core"))) <$> years ∧
  relateds = (λ y, Z.of_nat (length (bucket papers y "related"))) <$> years ∧
  totals = row_size papers <$> years ∧
  Forall (λ t, 1 ≤ t) totals.
Proof.
  unfold trend_chart_data. destruct papers as [|paper rest]; [done|].
  set (papers := paper :: rest). intros [= <- <- <- <-].
  change (foldl chart_step (chart_step ∅ paper) rest) with (foldl chart_step ∅ papers).
  assert (∀ years : list Z,
    (λ y, (default (0, 0) (foldl chart_step ∅ papers !! y)).1) <$> years
    = (λ y, Z.of_nat (length (bucket papers y "core"))) <$> years) as Hc.
  { intros years. apply list_fmap_ext. intros _ y _.
    by rewrite (proj1 (chart_lookup papers y)). }
  assert (∀ years : list Z,
    (λ y, (default (0, 0) (foldl chart_step ∅ papers !! y)).2) <$> years
    = (λ y, Z.of_nat (length (bucket papers y "related"))) <$> years) as Hr.
  { intros years. apply list_fmap_ext. intros _ y _.
    by rewrite (proj1 (chart_lookup papers y)). }
  assert (zip_with Z.add
            ((λ y, (default (0, 0) (foldl chart_step ∅ papers !! y)).1)
               <$> sorted_years (foldl chart_step ∅ papers))
            ((λ y, (default (0, 0) (foldl chart_step ∅ papers !! y)).2)
               <$> sorted_years (foldl chart_step ∅ papers))
          = row_size papers <$> sorted_years (foldl chart_step ∅ papers)) as Ht.
  { rewrite Hc, Hr. generalize (sorted_years (foldl chart_step ∅ papers)).
    intros l. induction l as [|y l IH]; [done|]. rewrite !fmap_cons. cbn [zip_with].
    by rewrite IH. }
  split; [apply sorted_years_sorted|]. split; [apply chart_years_elem|].
  split; [apply Hc|]. split; [apply Hr|]. split; [apply Ht|].
  rewrite Ht. apply Forall_fmap, Forall_forall. intros y Hy%chart_years_elem. simpl. lia.
Qed.

(** X18: the data of the trend chart.  Its years are strictly
    ascending and are the years with at least one counted paper (year
    in the window, category core or related); the three count lists
    hold, year by year, the number of core papers, of related papers,
    and their sum, which is at least 1. *)
Theorem trend_chart_counts (papers : list dict) (years cores relateds totals : list Z) :
  trend_chart_data papers = Some (years, cores, relateds, totals) →
  StronglySorted Z.lt years ∧
  (∀ y, y ∈ years ↔ 0 < row_size papers y) ∧
  cores = (λ y, Z.of_nat (length (bucket papers y "core"))) <$> years ∧
  relateds = (λ y, Z.of_nat (length (bucket papers y "related"))) <$> years ∧
  totals = row_size papers <$> years ∧
  Forall (λ t, 1 ≤ t) totals.
Proof. apply trend_chart_data_spec. Qed.

Lemma trend_chart_counts_witness :
  StronglySorted Z.lt [2020; 2021; 2023] ∧
  (∀ y, y ∈ [2020; 2021; 2023] ↔ 0 < row_size sample_papers y) ∧
  [0; 1; 1] = (λ y, Z.of_nat (length (bucket sample_papers y "core"))) <$> [2020; 2021; 2023] ∧
  [1; 1; 0]
    = (λ y, Z.of_nat (length (bucket sample_papers y "related"))) <$> [2020; 2021; 2023] ∧
  [1; 2; 1] = row_size sample_papers <$> [2020; 2021; 2023] ∧
  Forall (λ t, 1 ≤ t) [1; 2; 1].
Proof.
  apply (trend_chart_counts sample_papers). vm_compute. reflexivity.
Defined.

Lemma growth_rates_positive (totals : list Z) :
  Forall (λ t, 1 ≤ t) totals →
  ∃ rates, growth_rates totals = Ok rates ∧
    ∀ (i : nat) prev curr, totals !! i = Some prev → totals !! S i = Some curr →
      0 < prev ∧
      rates !! i = Some (inject_Z (curr - prev) / inject_Z prev * inject_Z 100)%Q.
Proof.
  intros Hpos. destruct (growth_rates_spec totals) as (rates & Hr & _ & Hall).
  exists rates. split; [done|]. intros i prev curr Hp Hc.
  assert (1 ≤ prev) as Hprev.
  { rewrite Forall_forall in Hpos. apply Hpos. by eapply list_elem_of_lookup_2. }
  split; [lia|]. destruct (Hall i prev curr Hp Hc) as (g & Hg & _ & Hf).
  rewrite Hg. f_equal. apply Hf. lia.
Qed.

(** X19: in the trend chart every year has a positive total, so the
    guard against a zero previous total never applies there: the
    growth loop of the chart returns, and each of its rates is
    (current - previous) / previous * 100. *)
Theorem chart_growth_always_formula (papers : list dict) :
  ∃ rates, chart_growth_rates papers = Ok rates ∧
    ∀ (i : nat) prev curr,
      chart_total_counts papers !! i = Some prev →
      chart_total_counts papers !! S i = Some curr →
      0 < prev ∧
      rates !! i = Some (inject_Z (curr - prev) / inject_Z prev * inject_Z 100)%Q.
Proof.
  apply growth_rates_positive. unfold chart_total_counts.
  apply Forall_fmap, Forall_forall. intros y Hy%chart_years_elem. simpl.
  destruct (chart_lookup papers y) as [Hv _].
  destruct (default (0, 0) (foldl chart_step ∅ papers !! y)) as [c r].
  injection Hv as -> ->. unfold row_size in Hy. lia.
Qed.

(** ** Collection Orchestrator *)






(** What every Paper of the title strategy satisfies. *)
Lemma process_work_Forall (P : dict → Prop) q cat work :
  (∀ paper, normalize_work q cat work = Ok paper →
            in_target_years (dict_get paper "year" VNone) = Ok true → P paper) →
  Forall P (all_papers (process_work q cat work empty_state).1).
Proof.
  intros HP. unfold process_work, mbind, fetch_bind, lift.
  destruct (normalize_work q cat work) as [paper|e]; simpl; [|constructor].
  destruct (in_target_years _) as [[|]|e] eqn:Hy; simpl; try constructor; [|constructor].
  by apply HP.
Qed.

Lemma for_each_Forall (P : dict → Prop) q cat works :
  (∀ work paper, normalize_work q cat work = Ok paper →
                 in_target_years (dict_get paper "year" VNone) = Ok true → P paper) →
  Forall P (all_papers (for_each (process_work q cat) works empty_state).1).
Proof.
  intros HP. induction works as [|work rest IH]; simpl; [constructor|].
  unfold mbind, fetch_bind.
  pose proof (process_work_Forall P q cat work (HP work)) as Hw.
  destruct (process_work q cat work empty_state) as [st0 [[]|e]]; simpl in *; [|done].
  rewrite for_each_extend. simpl. by apply Forall_app.
Qed.

Lemma page_papers_Forall (P : dict → Prop) q cat params page reply :
  (∀ work paper, normalize_work q cat work = Ok paper →
                 in_target_years (dict_get paper "year" VNone) = Ok true → P paper) →
  Forall P (page_papers q cat params page reply).
Proof.
  intros HP. unfold page_papers, fetch_page, mbind, fetch_bind, http_get.
  destruct reply as [|status text json]; simpl; [constructor|].
  destruct (negb (status =? 200)); simpl; [constructor|].
  unfold lift. destruct (response_json json) as [data|e]; simpl; [|constructor].
  destruct (py_get data "results" _) as [results|e]; simpl; [|constructor].
  destruct (negb (truthy results)); simpl; [constructor|].
  destruct (py_iter results) as [works|e]; simpl; [|constructor].
  rewrite (for_each_extend q cat works {| all_papers := []; requests := _ |}).
  pose proof (for_each_Forall P q cat works HP) as Hw.
  destruct (for_each (process_work q cat) works empty_state) as [[ps rs] [[]|e]];
    simpl in *; [|done].
  destruct (py_get data "meta" _) as [meta|e]; simpl; [|done].
  destruct (py_get meta "count" _) as [count|e]; simpl; [|done].
  by destruct (page_reached page count _) as [reached|e].
Qed.

Lemma fetch_loop_Forall (P : dict → Prop) server params q cat (fuel : nat) :
  (∀ work paper, normalize_work q cat work = Ok paper →
                 in_target_years (dict_get paper "year" VNone) = Ok true → P paper) →
  ∀ page st st', Forall P (all_papers st) →
    fetch_loop fuel server params q cat page st = Some st' →
    Forall P (all_papers st').
Proof.
  intros HP. induction fuel as [|fuel IH]; intros page st st' Hst; [done|].
  simpl. rewrite fetch_page_extend. simpl.
  assert (Forall P (all_papers (extend st
            (page_papers q cat params page (server (page_request params page)))
            [page_request params page]))) as Hst1.
  { simpl. apply Forall_app. split; [done|]. by apply page_papers_Forall. }
  destruct (page_outcome _ _ _ _ _) as [[|]|e].
  - by intros [= <-].
  - destruct (page + 1 >? 10); [by intros [= <-]|]. by apply IH.
  - by intros [= <-].
Qed.

Lemma normalize_work_category q cat work paper :
  normalize_work q cat work = Ok paper →
  dict_get paper "category" (VStr "unknown") = VStr cat.
Proof.
  unfold normalize_work.
  repeat (match goal with
          | |- context [mbind _ ?m] => destruct m eqn:?; simpl; [|done]
          end).
  by intros [= <-].
Qed.

Lemma in_window_summary_year paper :
  in_window paper → is_Some (summary_year (dict_get paper "year" VNone)).
Proof.
  intros (y & -> & Hy). unfold summary_year. simpl.
  destruct (Z.eqb_spec y 0) as [?|_]; [lia|]. simpl.
  destruct (Z.leb_spec 2020 y); [|lia]. destruct (Z.leb_spec y 2025); [|lia]. simpl. eauto.
Qed.

(** A Paper both strategies can produce for the Aggregator. *)
Lemma counted_intro paper cat :
  in_window paper → dict_get paper "category" (VStr "unknown") = VStr cat →
  cat = "core" ∨ cat = "related" → counted paper = true.
Proof.
  intros Hw Hc Hcat. unfold counted. rewrite Hc.
  rewrite bool_decide_eq_true_2 by (by apply in_window_summary_year).
  by destruct Hcat as [-> | ->].
Qed.

Lemma search_works_counted (fuel : nat) server email q cat ys ye st :
  cat = "core" ∨ cat = "related" →
  search_works fuel server email q cat ys ye = Some st →
  Forall (λ paper, in_window paper ∧ counted paper = true) (all_papers st).
Proof.
  intros Hcat. unfold search_works. apply fetch_loop_Forall; [|constructor].
  intros work paper Hn Hy.
  assert (in_window paper) as Hw by (by apply in_target_years_true).
  split; [done|]. eapply counted_intro; [done| |done]. by eapply normalize_work_category.
Qed.

Lemma abstract_paper_counted q cat work paper :
  cat = "core" ∨ cat = "related" →
  abstract_paper q cat work = Ok (Some paper) →
  in_window paper ∧ counted paper = true.
Proof.
  intros Hcat Hp. assert (in_window paper) as Hw by (by eapply abstract_paper_in_window).
  split; [done|]. eapply counted_intro; [done| |done].
  revert Hp. unfold abstract_paper. destruct work as [| | | | |d]; try done. simpl.
  destruct (in_target_years _) as [[|]|e]; simpl; [|done|done].
  by intros [= <-].
Qed.

Lemma title_strategy_counted (fuel : nat) server email queries : ∀ st st',
  Forall (λ query : string * string, query.2 = "core" ∨ query.2 = "related") queries →
  Forall (λ paper, in_window paper ∧ counted paper = true) (all_papers st) →
  title_strategy fuel server email queries st = Some st' →
  Forall (λ paper, in_window paper ∧ counted paper = true) (all_papers st').
Proof.
  induction queries as [|[term category] rest IH]; intros st st' Hq Hst; simpl.
  - by intros [= <-].
  - apply Forall_cons in Hq as [Hcat Hq]. simpl in Hcat.
    destruct (search_works fuel server email term category 2004 2025) as [found|] eqn:Hs;
      [|done].
    apply IH; [done|]. simpl. apply Forall_app. split; [done|].
    by eapply search_works_counted.
Qed.

Lemma abstract_strategy_counted server email terms : ∀ st,
  Forall (λ paper, in_window paper ∧ counted paper = true) (all_papers st) →
  Forall (λ paper, in_window paper ∧ counted paper = true)
         (all_papers (abstract_strategy server email terms st)).
Proof.
  induction terms as [|term rest IH]; intros st Hst; simpl; [done|].
  apply IH. simpl. apply Forall_app. split; [done|].
  apply search_by_abstract_Forall. intros work paper.
  apply abstract_paper_counted. by right.
Qed.

Lemma Forall_sublist {A : Type} (P : A → Prop) (l1 l2 : list A) :
  sublist l1 l2 → Forall P l2 → Forall P l1.
Proof.
  induction 1 as [|x l1 l2 _ IH|x l1 l2 _ IH]; [done|..];
    intros [Hx Hl]%Forall_cons; [constructor|]; auto.
Qed.

Lemma filter_all {A : Type} (f : A → bool) (l : list A) :
  Forall (λ x, f x = true) l → List.filter f l = l.
Proof. induction 1 as [|x l Hx _ IH]; simpl; [done|]. by rewrite Hx, IH. Qed.

(** X21: every Paper [collect_all_papers] returns has an integer year
    between 2020 and 2025 and the category core or related, so the
    Aggregator counts each of them: the totals of the summary table
    built from the collected papers add up to their number. *)
Theorem collected_papers_all_counted (fuel : nat) (server : api) (email : string)
    (run : collection) (papers : list dict) :
  collect_all_papers fuel server email = Some run →
  collected run = Ok papers →
  Forall (λ paper, in_window paper ∧ counted paper = true) papers ∧
  ∀ reports, save_annual_summary_csvs papers = Ok (Some reports) →
    sum_Z (total_papers <$> summary reports) = Z.of_nat (length papers).
Proof.
  unfold collect_all_papers.
  destruct (title_strategy fuel server email title_queries empty_state) as [st1|] eqn:Ht;
    [|done].
  intros [= <-]. cbn [collected]. intros Hdedup.
  assert (Forall (λ paper, in_window paper ∧ counted paper = true) papers) as Hall.
  { eapply Forall_sublist; [by eapply dedup_loop_sublist|].
    change (Forall (λ paper, in_window paper ∧ counted paper = true)
              (all_papers (abstract_strategy server email key_terms st1))).
    apply abstract_strategy_counted.
    apply (title_strategy_counted fuel server email title_queries empty_state st1);
      [|constructor|exact Ht].
    unfold title_queries. simpl.
    repeat (apply Forall_cons; split; [simpl; auto|]). constructor. }
  split; [done|]. intros reports Hrep.
  rewrite (summary_totals_counted _ _ Hrep), filter_all; [done|].
  eapply Forall_impl; [exact Hall|]. by intros paper [_ ?].
Qed.

Lemma collected_papers_all_counted_witness :
  ∃ run papers,
    collect_all_papers 10 null_field_server "me@example.org" = Some run ∧
    collected run = Ok papers ∧
    Forall (λ paper, in_window paper ∧ counted paper = true) papers ∧
    ∀ reports, save_annual_summary_csvs papers = Ok (Some reports) →
      sum_Z (total_papers <$> summary reports) = Z.of_nat (length papers).
Proof.
  eexists _, _. split; [vm_compute; reflexivity|]. split; [vm_compute; reflexivity|].
  eapply (collected_papers_all_counted 10 null_field_server "me@example.org");
    vm_compute; reflexivity.
Defined.

(** ** The chart against the summary *)

Lemma row_size_positive (papers : list dict) (y : Z) :
  0 < row_size papers y →
  ∃ paper, paper ∈ papers ∧ summary_year (dict_get paper "year" VNone) = Some y.
Proof.
  induction papers as [|paper papers IH]; [unfold row_size, bucket; simpl; lia|].
  rewrite row_size_cons.
  destruct (in_bucket y "core" paper || in_bucket y "related" paper) eqn:Hb.
  - intros _. exists paper. split; [left|].
    apply orb_prop in Hb as [Hb|Hb]; apply in_bucket_in_year in Hb;
      unfold in_year in Hb; by apply bool_decide_eq_true in Hb.
  - intros H. destruct IH as (q & Hq & Hy); [lia|]. exists q. split; [by right|done].
Qed.

Lemma StronglySorted_List_filter (f : Z → bool) (l : list Z) :
  StronglySorted Z.lt l → StronglySorted Z.lt (List.filter f l).
Proof.
  induction 1 as [|x l _ IH Hall]; simpl; [constructor|].
  destruct (f x); [|done]. constructor; [done|].
  rewrite Forall_forall in Hall. apply Forall_forall.
  intros z Hz%list_elem_of_In%List.filter_In. apply Hall, list_elem_of_In. tauto.
Qed.

Lemma sorted_same_elements (l1 l2 : list Z) :
  StronglySorted Z.lt l1 → StronglySorted Z.lt l2 → (∀ y, y ∈ l1 ↔ y ∈ l2) → l1 = l2.
Proof.
  intros H1 H2 Hiff.
  assert (∀ l, StronglySorted Z.lt l → NoDup l) as Hnd.
  { induction 1 as [|x l _ IH Hall]; constructor; [|done].
    rewrite Forall_forall in Hall. intros Hx%Hall. lia. }
  apply (StronglySorted_unique_strong Z.lt); [intros; lia|done|done|].
  apply NoDup_Permutation; auto.
Qed.

Lemma chart_years_of_summary (papers : list dict) :
  sorted_years (foldl chart_step ∅ papers)
  = List.filter (λ y, 0 <? row_size papers y) (sorted_years (organize papers)).
Proof.
  apply sorted_same_elements.
  - apply sorted_years_sorted.
  - apply StronglySorted_List_filter, sorted_years_sorted.
  - intros y. rewrite chart_years_elem, list_elem_of_In, List.filter_In, <- list_elem_of_In.
    rewrite sorted_years_elem, organize_dom, Z.ltb_lt. split; [|tauto].
    intros H. split; [by apply row_size_positive|done].
Qed.

Lemma fmap_List_filter_year (g : summary_row → bool) (h : Z → bool) (rows : list summary_row) :
  Forall (λ row, g row = h (year row)) rows →
  year <$> List.filter g rows = List.filter h (year <$> rows).
Proof.
  induction 1 as [|row rows Hrow _ IH]; [done|]. rewrite fmap_cons. simpl.
  rewrite <- Hrow. destruct (g row); [|done]. by rewrite fmap_cons, IH.
Qed.

Lemma Forall_List_filter_weaken {A : Type} (P : A → Prop) (f : A → bool) (l : list A) :
  Forall P l → Forall P (List.filter f l).
Proof. induction 1 as [|x l]; simpl; [constructor|]. destruct (f x); [by constructor|done]. Qed.

(** X22: the trend chart shows the summary table without its empty
    rows: the years and the core, related and total counts the chart
    returns are the columns of the summary rows whose total is
    positive, in the same order. *)
Theorem chart_is_summary_without_empty_rows (papers : list dict) (reports : annual_reports)
    (years cores relateds totals : list Z) :
  save_annual_summary_csvs papers = Ok (Some reports) →
  trend_chart_data papers = Some (years, cores, relateds, totals) →
  years = year <$> List.filter (λ row, 0 <? total_papers row) (summary reports) ∧
  cores = core_papers <$> List.filter (λ row, 0 <? total_papers row) (summary reports) ∧
  relateds = related_papers <$> List.filter (λ row, 0 <? total_papers row) (summary reports) ∧
  totals = total_papers <$> List.filter (λ row, 0 <? total_papers row) (summary reports).
Proof.
  intros Hrep Hchart.
  pose proof (summary_rows_sizes _ _ Hrep) as Hsizes.
  assert (years = year <$> List.filter (λ row, 0 <? total_papers row) (summary reports))
    as Hyears.
  { rewrite (fmap_List_filter_year _ (λ y, 0 <? row_size papers y)).
    - rewrite (summary_years _ _ Hrep), <- chart_years_of_summary.
      revert Hchart. unfold trend_chart_data. destruct papers; [done|]. by intros [= <- _ _ _].
    - eapply Forall_impl; [exact Hsizes|]. by intros row [= _ _ ->]. }
  destruct (trend_chart_data_spec _ _ _ _ _ Hchart) as (_ & _ & Hc & Hr & Ht & _).
  pose proof (Forall_List_filter_weaken _ (λ row, 0 <? total_papers row) _ Hsizes) as Hf.
  split; [done|]. rewrite Hc, Hr, Ht, Hyears. repeat split; symmetry; apply fmap_via_year.
  - eapply Forall_impl; [exact Hf|]. by intros row [= -> _ _].
  - eapply Forall_impl; [exact Hf|]. by intros row [= _ -> _].
  - eapply Forall_impl; [exact Hf|]. by intros row [= _ _ ->].
Qed.

Lemma chart_is_summary_without_empty_rows_witness :
  ∃ reports years cores relateds totals,
    save_annual_summary_csvs sample_papers = Ok (Some reports) ∧
    trend_chart_data sample_papers = Some (years, cores, relateds, totals) ∧
    length (summary reports) = 4%nat ∧ length years = 3%nat ∧
    years = year <$> List.filter (λ row, 0 <? total_papers row) (summary reports) ∧
    cores = core_papers <$> List.filter (λ row, 0 <? total_papers row) (summary reports) ∧
    relateds
      = related_papers <$> List.filter (λ row, 0 <? total_papers row) (summary reports) ∧
    totals = total_papers <$> List.filter (λ row, 0 <? total_papers row) (summary reports).
Proof.
  eexists _, _, _, _, _. split; [vm_compute; reflexivity|].
  split; [vm_compute; reflexivity|]. split; [reflexivity|]. split; [reflexivity|].
  apply (chart_is_summary_without_empty_rows sample_papers); vm_compute; reflexivity.
Defined.

(** *** First occurrence wins *)

Lemma dedup_loop_first (paper : dict) (after : list dict) (k : key) before :
  ∀ (seen_ids : gset key) seen_titles out,
  dedup_loop (before ++ paper :: after) [] seen_ids seen_titles = Ok out →
  truthy (paper_id paper) = true →
  py_hash (paper_id paper) = Ok k →
  k ∉ seen_ids →
  Forall (λ earlier, py_hash (paper_id earlier) ≠ Ok k) before →
  paper ∈ out.
Proof.
  induction before as [|h before IH]; intros si st out Hrun Ht Hk Hsi Hb.
  - cbn [app] in Hrun. rewrite dedup_loop_cons in Hrun.
    unfold id_unseen in Hrun. rewrite Ht, Hk in Hrun. simpl in Hrun.
    rewrite bool_decide_eq_true_2 in Hrun by done.
    apply fmap_result_ok in Hrun as (out' & _ & ->). left.
  - apply Forall_cons in Hb as [Hh Hb].
    change ((h :: before) ++ paper :: after)
      with (h :: (before ++ paper :: after)) in Hrun.
    rewrite dedup_loop_cons in Hrun.
    destruct (id_unseen _ si) as [[|]|e] eqn:Hid; simpl in Hrun; [| |done].
    + destruct (py_hash (paper_id h)) as [kh|e] eqn:Hkh; simpl in Hrun; [|done].
      destruct (dedup_loop _ [] _ _) as [out'|e] eqn:Hrest; simpl in Hrun; [|done].
      injection Hrun as <-. right.
      apply (IH _ _ _ Hrest Ht Hk); [|done].
      intros [Heq%elem_of_singleton|Hin]%elem_of_union; [|done].
      apply Hh. by rewrite Heq.
    + destruct (title_unseen _ st).
      * destruct (dedup_loop _ [] _ _) as [out'|e] eqn:Hrest; simpl in Hrun; [|done].
        injection Hrun as <-. right. by apply (IH _ _ _ Hrest).
      * by apply (IH _ _ _ Hrun).
Qed.

(** X23. Of the records that share an id, the first one is the one kept:
    a record with a truthy id that no earlier record of the input carries is
    in the result of [remove_duplicates], whatever follows it. *)
Theorem remove_duplicates_first_occurrence (before after out : list dict)
    (paper : dict) :
  remove_duplicates (before ++ paper :: after) = Ok out →
  ¬ idless paper →
  Forall (λ earlier, py_hash (paper_id earlier) ≠ py_hash (paper_id paper)) before →
  paper ∈ out.
Proof.
  intros Hrun Hid Hb.
  assert (Ht : truthy (paper_id paper) = true).
  { unfold idless in Hid. by destruct (truthy (paper_id paper)). }
  destruct (py_hash (paper_id paper)) as [k|e] eqn:Hk.
  - by apply (dedup_loop_first paper after k before ∅ ∅ out).
  - exfalso. revert Hrun. unfold remove_duplicates.
    clear Hb. generalize (∅ : gset key), (∅ : gset string). revert out.
    induction before as [|h before IH]; intros out si st.
    + cbn [app]. rewrite dedup_loop_cons. unfold id_unseen. rewrite Ht, Hk. done.
    + change ((h :: before) ++ paper :: after)
        with (h :: (before ++ paper :: after)).
      rewrite dedup_loop_cons.
      destruct (id_unseen _ si) as [[|]|e'] eqn:Hid'; simpl; [| |done].
      * destruct (py_hash (paper_id h)) as [kh|e'']; simpl; [|done].
        destruct (dedup_loop _ [] _ _) as [out'|e''] eqn:Hrest; simpl; [|done].
        intros _. by apply (IH _ _ _ Hrest).
      * destruct (title_unseen _ st).
        -- destruct (dedup_loop _ [] _ _) as [out'|e''] eqn:Hrest; simpl; [|done].
           intros _. by apply (IH _ _ _ Hrest).
        -- apply IH.
Qed.

Lemma remove_duplicates_first_occurrence_witness :
  ex_rec1 ∈ [ex_rec3; ex_rec1; ex_rec2].
Proof.
  apply (remove_duplicates_first_occurrence [ex_rec3] [ex_rec2]
           [ex_rec3; ex_rec1; ex_rec2] ex_rec1).
  - vm_compute. reflexivity.
  - vm_compute. discriminate.
  - apply Forall_cons. split; [vm_compute; discriminate|constructor].
Defined.

(** *** Column totals over the whole table *)

Lemma row_weight_cons w paper papers y :
  row_weight w (paper :: papers) y
  = (if in_bucket y "core" paper || in_bucket y "related" paper then w paper else 0)
    + row_weight w papers y.
Proof.
  unfold row_weight, weight_sum, sum_Z, bucket. cbn [List.filter].
  pose proof (in_bucket_exclusive y paper).
  destruct (in_bucket y "core" paper), (in_bucket y "related" paper);
    rewrite ?fmap_cons; cbn [foldr orb] in *; try done; lia.
Qed.

Lemma row_weight_nil w (years : list Z) : sum_Z (row_weight w [] <$> years) = 0.
Proof.
  induction years as [|y years IH]; [done|].
  unfold sum_Z in *. rewrite fmap_cons. cbn [foldr]. rewrite IH. done.
Qed.

Lemma row_weight_skip w paper papers (years : list Z) :
  Forall (λ y, summary_year (dict_get paper "year" VNone) ≠ Some y) years →
  sum_Z (row_weight w (paper :: papers) <$> years) = sum_Z (row_weight w papers <$> years).
Proof.
  induction 1 as [|y years Hy _ IH]; [done|].
  unfold sum_Z in *. rewrite !fmap_cons. cbn [foldr].
  rewrite row_weight_cons, !in_bucket_other_year by done. rewrite IH. done.
Qed.

Lemma sum_row_weight_cons w paper papers (years : list Z) :
  NoDup years →
  (∀ y, summary_year (dict_get paper "year" VNone) = Some y → y ∈ years) →
  sum_Z (row_weight w (paper :: papers) <$> years)
  = (if counted paper then w paper else 0) + sum_Z (row_weight w papers <$> years).
Proof.
  intros Hnd Hin.
  destruct (summary_year (dict_get paper "year" VNone)) as [y0|] eqn:Hy.
  - specialize (Hin y0 eq_refl). rewrite (counted_in_bucket y0 paper Hy).
    induction years as [|y years IH]; [by apply elem_of_nil in Hin|].
    apply NoDup_cons in Hnd as [Hy_notin Hnd].
    destruct (decide (y = y0)) as [-> | Hne].
    + pose proof (row_weight_skip w paper papers years) as Hskip.
      unfold sum_Z in *. rewrite !fmap_cons. cbn [foldr].
      rewrite row_weight_cons, Hskip; [lia|].
      apply Forall_forall. intros y Hyin. rewrite Hy. intros [= ->]. done.
    + apply elem_of_cons in Hin as [Heq|Hin]; [congruence|].
      specialize (IH Hnd Hin).
      unfold sum_Z in *. rewrite !fmap_cons. cbn [foldr].
      rewrite row_weight_cons, !in_bucket_other_year by congruence.
      cbn [orb]. rewrite IH. lia.
  - rewrite (counted_no_year paper Hy), row_weight_skip; [done|].
    apply Forall_forall. intros y _. by rewrite Hy.
Qed.

Lemma sum_row_weight w (papers : list dict) (years : list Z) :
  NoDup years →
  (∀ paper y, paper ∈ papers →
     summary_year (dict_get paper "year" VNone) = Some y → y ∈ years) →
  sum_Z (row_weight w papers <$> years) = weight_sum w (List.filter counted papers).
Proof.
  intros Hnd. induction papers as [|paper papers IH]; intros Hin.
  - apply row_weight_nil.
  - rewrite sum_row_weight_cons; [|done|intros y; apply Hin; left].
    rewrite IH by (intros q y Hq; apply Hin; by right).
    cbn [List.filter]. destruct (counted paper); [|done].
    unfold weight_sum, sum_Z. rewrite fmap_cons. done.
Qed.

Lemma citation_weight_sum (papers : list dict) :
  sum_Z (omap citations_of papers) = weight_sum citation_weight papers.
Proof.
  unfold weight_sum, sum_Z, citation_weight.
  induction papers as [|paper papers IH]; [done|].
  rewrite fmap_cons. cbn [omap list_omap foldr].
  fold (omap citations_of papers). rewrite <- IH.
  by destruct (citations_of paper).
Qed.

Lemma open_access_weight_sum (papers : list dict) :
  open_access_count papers = weight_sum open_access_weight papers.
Proof.
  unfold open_access_count, weight_sum, sum_Z, open_access_weight.
  induction papers as [|paper papers IH]; [done|].
  rewrite fmap_cons. cbn [List.filter foldr]. rewrite <- IH.
  destruct (is_open_access paper); cbn [length]; lia.
Qed.

(** X24. The citation and open-access totals of the summary table lose
    nothing and count nothing twice: over all rows, [total_citations]
    adds up to the citation counts of the counted input papers, and
    [total_open_access] to the number of counted papers that are open
    access. *)
Theorem summary_citations_add_up (papers : list dict) (reports : annual_reports) :
  save_annual_summary_csvs papers = Ok (Some reports) →
  sum_Z (total_citations <$> summary reports)
    = sum_Z (omap citations_of (List.filter counted papers)) ∧
  sum_Z (total_open_access <$> summary reports)
    = open_access_count (List.filter counted papers).
Proof.
  intros Hrep.
  pose proof (summary_rows_totals _ _ Hrep) as Htot.
  pose proof (summary_rows_buckets _ _ Hrep) as Hcnt.
  rewrite Forall_forall in Htot, Hcnt.
  assert (Hyears : ∀ w, sum_Z (row_weight w papers <$> (year <$> summary reports))
                        = weight_sum w (List.filter counted papers)).
  { intros w. rewrite (summary_years _ _ Hrep).
    apply sum_row_weight; [apply sorted_years_NoDup|].
    intros paper y Hp Hy. apply sorted_years_elem, organize_dom. eauto. }
  split.
  - rewrite citation_weight_sum, <- Hyears. f_equal. apply fmap_via_year.
    apply Forall_forall. intros row Hrow.
    destruct (Htot row Hrow) as (_ & -> & _).
    destruct (Hcnt row Hrow) as (_ & _ & -> & -> & _).
    unfold row_weight. by rewrite !citation_weight_sum.
  - rewrite open_access_weight_sum, <- Hyears. f_equal. apply fmap_via_year.
    apply Forall_forall. intros row Hrow.
    destruct (Htot row Hrow) as (_ & _ & ->).
    destruct (Hcnt row Hrow) as (_ & _ & _ & _ & -> & ->).
    unfold row_weight. by rewrite !open_access_weight_sum.
Qed.

Lemma summary_citations_add_up_witness :
  ∃ reports, save_annual_summary_csvs sample_papers = Ok (Some reports) ∧
    sum_Z (total_citations <$> summary reports)
      = sum_Z (omap citations_of (List.filter counted sample_papers)) ∧
    sum_Z (total_open_access <$> summary reports)
      = open_access_count (List.filter counted sample_papers).
Proof.
  eexists. split; [vm_compute; reflexivity|].
  apply (summary_citations_add_up sample_papers). vm_compute. reflexivity.
Defined.

(** *** The number of pages a steady total asks for *)

Lemma readable_page_outcome q cat params page count reply :
  readable_page q cat count reply →
  Z.abs count < float_overflow_bound * req_per_page params →
  page_outcome q cat params page reply
  = Ok (if count <=? page * req_per_page params then Break else Next_page).
Proof.
  intros (text & data & works & kept & meta & -> & Hres & Hne & Hgood & Hmeta & Hc) Hb.
  unfold page_outcome, fetch_page, mbind, fetch_bind, http_get.
  set (run := for_each (process_work q cat)). simpl.
  rewrite Hres. destruct works as [|w ws]; [done|]. simpl.
  unfold run. rewrite for_each_extend, (for_each_kept _ _ _ _ Hgood). simpl.
  rewrite Hmeta. simpl. unfold lift, page_reached. rewrite Hc.
  destruct (Z.leb_spec (float_overflow_bound * req_per_page params) (Z.abs count)); [lia|].
  by destruct (count <=? _).
Qed.

(** X25. When the API serves readable, non-empty pages and reports the
    same total [count] on each, [search_works] requests pages 1 to [n]
    and returns the papers of exactly these pages, where [n] is the
    number of pages of 200 the total asks for: the first [n] with
    [count <= 200 * n], at least 1 and cut off at 10. *)
Theorem search_works_page_count (fuel : nat) (server : api) (email q cat : string)
    (ys ye count n : Z) :
  (10 ≤ fuel)%nat →
  1 ≤ n ≤ 10 →
  Z.abs count < float_overflow_bound * 200 →
  (∀ p, 1 ≤ p ≤ n →
     readable_page q cat count (server (page_request (title_params email q ys ye) p))) →
  n = 1 ∨ 200 * (n - 1) < count →
  n = 10 ∨ count ≤ 200 * n →
  search_works fuel server email q cat ys ye
  = Some {| all_papers := pages_papers server q cat (title_params email q ys ye) 1 n;
            requests := page_requests (title_params email q ys ye) 1 n |}.
Proof.
  intros Hfuel Hn Hb Hpages Hlow Hhigh. unfold search_works.
  set (params := title_params email q ys ye) in *.
  assert (Hout : ∀ p, 1 ≤ p ≤ n →
            page_outcome q cat params p (server (page_request params p))
            = Ok (if count <=? p * 200 then Break else Next_page)).
  { intros p Hp. by rewrite (readable_page_outcome q cat params p count _ (Hpages p Hp)). }
  destruct (fetch_loop_trace server params q cat fuel 1 empty_state)
    as (m & Hm & Hrun & Hbefore & Hlast); [lia|lia|].
  assert (m = n) as ->; [|by rewrite Hrun].
  destruct (Z.lt_trichotomy m n) as [Hlt|[Heq|Hgt]]; [|done|].
  - destruct Hlast as [Hlast|Hlast]; [|lia].
    exfalso. apply Hlast. rewrite Hout by lia.
    destruct (Z.leb_spec count ((1 + m - 1) * 200)); [lia|done].
  - exfalso. specialize (Hbefore n ltac:(lia)). rewrite Hout in Hbefore by lia.
    destruct (Z.leb_spec count (n * 200)); [done|lia].
Qed.

Lemma search_works_page_count_witness :
  search_works 10 (steady_server 450) "me@example.org" "energy hub" "core" 2020 2025
  = Some {| all_papers :=
              pages_papers (steady_server 450) "energy hub" "core"
                (title_params "me@example.org" "energy hub" 2020 2025) 1 3;
            requests :=
              page_requests (title_params "me@example.org" "energy hub" 2020 2025) 1 3 |}.
Proof.
  apply (search_works_page_count 10 (steady_server 450) _ _ _ _ _ 450 3).
  - lia.
  - lia.
  - vm_compute. reflexivity.
  - intros p _.
    exists "", [("results", VList [sample_work "W1" 2021]); ("meta", VDict [("count", VInt 450)])],
      [sample_work "W1" 2021], [Some (sample_normalized "W1" 2021 "energy hub" "core")],
      [("count", VInt 450)].
    split; [reflexivity|]. split; [reflexivity|]. split; [discriminate|].
    split; [|split; reflexivity].
    constructor; [vm_compute; reflexivity|constructor].
  - right. lia.
  - right. lia.
Defined.
